(** * Validation and normalisation engine of the metadata ingestion gateway

    A shallow embedding of [validate_field_type], [validate_metadata] and
    [normalize_metadata] of [main.py], with the properties that the
    specification states about them.

    Python values are a closed inductive type; a [dict] is an association
    list in insertion order; a function that may raise returns an
    [outcome]. *)

From Stdlib Require Import List String Ascii ZArith Bool Lia.
From Stdlib Require Import DecimalString.
Import ListNotations.
Local Open Scope list_scope.
Local Open Scope string_scope.

Set Implicit Arguments.

(** ** Dynamically typed values *)

(** The values that [json.load] and the request parser hand to the engine.
    A float is carried as the text that [repr] prints for it: nothing in
    this program computes with floats, it only prints them. *)
#[local] Unset Elimination Schemes.
Inductive pyval : Type :=
| VNone
| VBool (b : bool)
| VInt (n : Z)
| VFloat (r : string)
| VStr (s : string)
| VList (l : list pyval)
| VDict (d : list (string * pyval)).
#[local] Set Elimination Schemes.

(** A [dict] with [str] keys, in insertion order. *)
Definition pydict : Type := list (string * pyval).

(** [type(value).__name__] *)
Definition type_name (value : pyval) : string :=
  match value with
  | VNone => "NoneType"
  | VBool _ => "bool"
  | VInt _ => "int"
  | VFloat _ => "float"
  | VStr _ => "str"
  | VList _ => "list"
  | VDict _ => "dict"
  end.

(** [isinstance(value, C)] for the classes the validator tests.  [bool] is
    a subclass of [int], so a boolean is an instance of [int]. *)
Definition isinstance_str (value : pyval) : bool :=
  match value with VStr _ => true | _ => false end.

Definition isinstance_bool (value : pyval) : bool :=
  match value with VBool _ => true | _ => false end.

Definition isinstance_int (value : pyval) : bool :=
  match value with VInt _ | VBool _ => true | _ => false end.

Definition isinstance_float (value : pyval) : bool :=
  match value with VFloat _ => true | _ => false end.

Definition isinstance_list (value : pyval) : bool :=
  match value with VList _ => true | _ => false end.

Definition isinstance_dict (value : pyval) : bool :=
  match value with VDict _ => true | _ => false end.

(** [value == s] for a string literal [s]. *)
Definition py_eq_str (value : pyval) (s : string) : bool :=
  match value with VStr t => String.eqb t s | _ => false end.

(** Truth value of a string: the empty string is false. *)
Definition str_truthy (s : string) : bool :=
  match s with EmptyString => false | String _ _ => true end.

(** ** Dictionaries *)

(** [d.get(key)], [None] of the option when the key is absent. *)
Fixpoint dict_get (d : pydict) (key : string) : option pyval :=
  match d with
  | [] => None
  | (k, v) :: d' => if String.eqb k key then Some v else dict_get d' key
  end.

(** [key in d] *)
Definition dict_mem (d : pydict) (key : string) : bool :=
  match dict_get d key with Some _ => true | None => false end.

(** [d[key] = v]: an existing key keeps its position, a new key is
    appended. *)
Fixpoint dict_set (d : pydict) (key : string) (v : pyval) : pydict :=
  match d with
  | [] => [(key, v)]
  | (k, w) :: d' =>
      if String.eqb k key then (k, v) :: d' else (k, w) :: dict_set d' key v
  end.

(** [d.get(key, default)] followed by a continuation on the value found;
    the continuation form lets the validator recurse into the value. *)
Section DictGetThen.
Variable R : Type.
Variable key : string.
Variable on_absent : R.
Variable on_value : pyval -> R.

Fixpoint dict_get_then (d : pydict) : R :=
  match d with
  | [] => on_absent
  | (k, v) :: d' => if String.eqb k key then on_value v else dict_get_then d'
  end.
End DictGetThen.

(** ** Printing values: [str] and [repr] *)

Definition hex_digit (n : nat) : ascii :=
  match n with
  | 0 => "0" | 1 => "1" | 2 => "2" | 3 => "3" | 4 => "4" | 5 => "5"
  | 6 => "6" | 7 => "7" | 8 => "8" | 9 => "9" | 10 => "a" | 11 => "b"
  | 12 => "c" | 13 => "d" | 14 => "e" | _ => "f"
  end%char.

Fixpoint str_contains_char (c : ascii) (s : string) : bool :=
  match s with
  | EmptyString => false
  | String a s' => Ascii.eqb a c || str_contains_char c s'
  end.


(** The character of code 34, the double quote. *)
Definition double_quote : ascii := ascii_of_nat 34.

(** The quote [repr] chooses: a double quote when the text holds a single
    quote and no double quote, a single quote otherwise. *)
Definition repr_quote (s : string) : ascii :=
  if str_contains_char "'"%char s && negb (str_contains_char double_quote s)
  then double_quote else "'"%char.

Definition repr_char (quote c : ascii) : string :=
  let n := nat_of_ascii c in
  if Ascii.eqb c quote || Ascii.eqb c "\"%char then String "\"%char (String c "")
  else if Nat.eqb n 9 then "\t"
  else if Nat.eqb n 10 then "\n"
  else if Nat.eqb n 13 then "\r"
  else if Nat.ltb n 32 || Nat.eqb n 127
       then String "\"%char (String "x"%char
              (String (hex_digit (n / 16)) (String (hex_digit (n mod 16)) "")))
  else String c "".

Fixpoint repr_chars (quote : ascii) (s : string) : string :=
  match s with
  | EmptyString => ""
  | String c s' => repr_char quote c ++ repr_chars quote s'
  end.

(** [repr(s)] of a string of ASCII characters ([ascii_text]): the quote,
    the escapes with a backslash and the codes in hexadecimal are those of
    the interpreter.  Outside ASCII the interpreter decides by its table of
    printable characters, which is not modelled: the bytes from 128 on are
    copied, and the statements that show a printed text ask for ASCII. *)
Definition repr_str (s : string) : string :=
  let q := repr_quote s in
  String q (repr_chars q s ++ String q "").

(** [sep.join(parts)] *)
Fixpoint join (sep : string) (parts : list string) : string :=
  match parts with
  | [] => ""
  | [p] => p
  | p :: rest => p ++ sep ++ join sep rest
  end.

(** [repr(value)] *)
Fixpoint py_repr (value : pyval) : string :=
  match value with
  | VNone => "None"
  | VBool true => "True"
  | VBool false => "False"
  | VInt n => NilZero.string_of_int (Z.to_int n)
  | VFloat r => r
  | VStr s => repr_str s
  | VList l => "[" ++ join ", " (map py_repr l) ++ "]"
  | VDict d =>
      "{" ++ join ", " (map (fun kv => let '(k, v) := kv in
                                       repr_str k ++ ": " ++ py_repr v) d) ++ "}"
  end.

(** [str(value)], what an f-string prints for [{value}]. *)
Definition py_str (value : pyval) : string :=
  match value with
  | VStr s => s
  | _ => py_repr value
  end.

(** ** Control flow: exceptions, early return, loops *)

(** The exceptions this program meets. *)
Inductive exn : Type :=
| HTTPException (status_code : Z) (detail : string)
| AttributeError (msg : string).

(** What a call does: it returns a value or raises. *)
Inductive outcome (A : Type) : Type :=
| Return (a : A)
| Raise (e : exn).
Arguments Return {A} a.
Arguments Raise {A} e.

(** What a statement inside a function body does: control goes on to the
    next statement, or the function returns, or an exception leaves it. *)
Inductive flow (A : Type) : Type :=
| Next
| Returned (a : A)
| Raised (e : exn).
Arguments Next {A}.
Arguments Returned {A} a.
Arguments Raised {A} e.

(** [for k, x in items: body]: the iterations in order, left at the first
    [return] or exception. *)
Section ForItems.
Variables A X : Type.
Variable body : string -> X -> flow A.

Fixpoint for_items (items : list (string * X)) : flow A :=
  match items with
  | [] => Next
  | (k, x) :: rest =>
      match body k x with
      | Next => for_items rest
      | Returned a => Returned a
      | Raised e => Raised e
      end
  end.
End ForItems.

(** The end of a function body that closes with [return last]. *)
Definition falls_to {A : Type} (last : A) (f : flow A) : outcome A :=
  match f with
  | Next => Return last
  | Returned a => Return a
  | Raised e => Raise e
  end.

(** [error = call; if error: return error] *)
Definition return_if_error (call : outcome (option string)) : flow (option string) :=
  match call with
  | Return (Some error) => if str_truthy error then Returned (Some error) else Next
  | Return None => Next
  | Raise e => Raised e
  end.

(** ** The field validator *)

(** The message of the [AttributeError] of [x.items()] on a value that is
    not a dict. *)
Definition no_items_attribute (x : pyval) : exn :=
  AttributeError ("'" ++ type_name x ++ "' object has no attribute 'items'").

(** [validate_field_type(field_name, value, expected_type)] (main.py, lines
    29 to 88): [Return None]
    when the value is valid, [Return (Some message)] otherwise.  The
    recursion is on the schema [expected_type]. *)
Fixpoint validate_field_type (field_name : string) (value : pyval)
    (expected_type : pyval) {struct expected_type} : outcome (option string) :=
  match expected_type with
  | VDict et =>
      let type_def := match dict_get et "type" with Some t => t | None => VNone end in
      if py_eq_str type_def "object" then
        if negb (isinstance_dict value) then
          Return (Some ("expected object for '" ++ field_name ++ "', got "
                        ++ type_name value))
        else
          let members := match value with VDict m => m | _ => [] end in
          dict_get_then "schema"
            (Return None)
            (fun nested_schema =>
               match nested_schema with
               | VDict ns =>
                   falls_to None
                     (for_items
                        (fun nested_field nested_type =>
                           match dict_get members nested_field with
                           | None =>
                               Returned (Some ("missing nested field '" ++ nested_field
                                               ++ "' in '" ++ field_name ++ "'"))
                           | Some nested_value =>
                               return_if_error
                                 (validate_field_type (field_name ++ "." ++ nested_field)
                                    nested_value nested_type)
                           end)
                        ns)
               | other => Raise (no_items_attribute other)
               end)
            et
      else
        Return (Some ("unsupported nested type structure in '" ++ field_name ++ "'"))
  | _ =>
      if py_eq_str expected_type "string" then
        if negb (isinstance_str value)
        then Return (Some ("expected string, got " ++ type_name value))
        else Return None
      else if py_eq_str expected_type "number" then
        if negb (isinstance_int value || isinstance_float value)
        then Return (Some ("expected number, got " ++ type_name value))
        else Return None
      else if py_eq_str expected_type "boolean" then
        if negb (isinstance_bool value)
        then Return (Some ("expected boolean, got " ++ type_name value))
        else Return None
      else if py_eq_str expected_type "array" then
        if negb (isinstance_list value)
        then Return (Some ("expected array, got " ++ type_name value))
        else Return None
      else if py_eq_str expected_type "object" then
        if negb (isinstance_dict value)
        then Return (Some ("expected object, got " ++ type_name value))
        else Return None
      else if py_eq_str expected_type "array_of_object" then
        if negb (isinstance_list value)
        then Return (Some ("expected array of objects, got " ++ type_name value))
        else
          let items := match value with VList l => l | _ => [] end in
          if negb (forallb isinstance_dict items)
          then Return (Some "expected array of objects, but one or more elements are not objects")
          else Return None
      else
        Return (Some ("unsupported data type '" ++ py_str expected_type ++ "' in config"))
  end.

(** ** The metadata validator *)

(** [[f for f in required_fields if f not in metadata]] *)
Definition missing_fields (metadata : pydict) (required_fields : list string)
  : list string :=
  filter (fun f => negb (dict_mem metadata f)) required_fields.

(** Truth value of a list: the empty list is false. *)
Definition list_truthy {A : Type} (l : list A) : bool :=
  match l with [] => false | _ :: _ => true end.

(** [metadata[field]]; the validator reads it only after [field in
    metadata]. *)
Definition dict_item (d : pydict) (key : string) : pyval :=
  match dict_get d key with Some v => v | None => VNone end.

(** [validate_metadata(metadata, required_fields, field_types)] (main.py,
    lines 93 to 108): returns
    nothing, or raises [HTTPException(400, ...)].  The required fields are
    strings, as the configuration files have them. *)
Definition validate_metadata (metadata : pydict) (required_fields : list string)
    (field_types : pydict) : outcome unit :=
  let missing := missing_fields metadata required_fields in
  if list_truthy missing then
    Raise (HTTPException 400
             ("Missing required fields: " ++ py_str (VList (map VStr missing))))
  else
    falls_to tt
      (for_items
         (fun field expected_type =>
            if dict_mem metadata field then
              match validate_field_type field (dict_item metadata field) expected_type with
              | Return (Some error_msg) =>
                  if str_truthy error_msg then
                    Raised (HTTPException 400
                              ("Incorrect data type for field '" ++ field ++ "': "
                               ++ error_msg))
                  else Next
              | Return None => Next
              | Raise e => Raised e
              end
            else Next)
         field_types).

(** ** The normaliser *)

(** [normalize_metadata(metadata, mappings)] (main.py, lines 111 to 117);
    the rename map sends a
    consumer field name to an internal field name, both strings. *)
Definition normalize_metadata (metadata : pydict) (mappings : list (string * string))
  : pydict :=
  fold_left
    (fun normalized entry =>
       let '(consumer_key, internal_key) := entry in
       match dict_get metadata consumer_key with
       | Some v => dict_set normalized internal_key v
       | None => normalized
       end)
    mappings [].

(** ** Loop bodies and predicates of the statements *)

(** The loop body of the nested-object branch. *)
Definition nested_step (field_name : string) (members : pydict)
    (nested_field : string) (nested_type : pyval) : flow (option string) :=
  match dict_get members nested_field with
  | None =>
      Returned (Some ("missing nested field '" ++ nested_field
                      ++ "' in '" ++ field_name ++ "'"))
  | Some nested_value =>
      return_if_error
        (validate_field_type (field_name ++ "." ++ nested_field)
           nested_value nested_type)
  end.

(** A schema entry passes on the members of a dict: the nested field is
    there and the validator, called with the dotted path, returns no
    error. *)
Definition nested_entry_passes (field_name : string) (members : pydict)
    (entry : string * pyval) : Prop :=
  exists nested_value,
    dict_get members (fst entry) = Some nested_value
    /\ validate_field_type (field_name ++ "." ++ fst entry) nested_value (snd entry)
       = Return None.

(** The loop body of [validate_metadata]. *)
Definition typed_field_step (metadata : pydict) (field : string)
    (expected_type : pyval) : flow unit :=
  if dict_mem metadata field then
    match validate_field_type field (dict_item metadata field) expected_type with
    | Return (Some error_msg) =>
        if str_truthy error_msg then
          Raised (HTTPException 400
                    ("Incorrect data type for field '" ++ field ++ "': " ++ error_msg))
        else Next
    | Return None => Next
    | Raise e => Raised e
    end
  else Next.

(** A typed field passes on the metadata: it is absent, or it is present
    and the validator returns no error for its value. *)
Definition typed_entry_passes (metadata : pydict) (entry : string * pyval) : Prop :=
  dict_mem metadata (fst entry) = false
  \/ exists value,
       dict_get metadata (fst entry) = Some value
       /\ validate_field_type (fst entry) value (snd entry) = Return None.


(** One iteration of the loop of [normalize_metadata]. *)
Definition normalize_step (metadata normalized : pydict) (entry : string * string)
  : pydict :=
  let '(consumer_key, internal_key) := entry in
  match dict_get metadata consumer_key with
  | Some v => dict_set normalized internal_key v
  | None => normalized
  end.

(** The loop of [normalize_metadata], from any dict built so far. *)
Definition normalize_loop (metadata : pydict) (mappings : list (string * string))
    (normalized : pydict) : pydict :=
  fold_left (normalize_step metadata) mappings normalized.

(** The mapping entries whose consumer key is a key of the metadata. *)
Definition present_entries (metadata : pydict) (mappings : list (string * string))
  : list (string * string) :=
  filter (fun entry => dict_mem metadata (fst entry)) mappings.

(** ** Sample data of the specification *)

Definition address_schema : pyval :=
  VDict [("type", VStr "object");
         ("schema", VDict [("city", VStr "string"); ("zip", VStr "number")])].

Definition address_full : pyval :=
  VDict [("city", VStr "NYC"); ("zip", VInt 10001)].

Definition address_no_zip : pyval :=
  VDict [("city", VStr "NYC")].

(** ** Text containment, to say that a message names something *)

(** [whole.startswith(part)] *)
Fixpoint starts_with (whole part : string) : bool :=
  match part, whole with
  | EmptyString, _ => true
  | String a part', String b whole' => Ascii.eqb a b && starts_with whole' part'
  | String _ _, EmptyString => false
  end.



(** ** Induction over nested values *)

(** Induction that reaches the elements of lists and the values of dicts. *)
Section PyvalInduction.
Variable P : pyval -> Prop.
Hypothesis HNone : P VNone.
Hypothesis HBool : forall b, P (VBool b).
Hypothesis HInt : forall n, P (VInt n).
Hypothesis HFloat : forall r, P (VFloat r).
Hypothesis HStr : forall s, P (VStr s).
Hypothesis HList : forall l, Forall P l -> P (VList l).
Hypothesis HDict : forall d, Forall (fun kv => P (snd kv)) d -> P (VDict d).

Fixpoint pyval_nested_ind (v : pyval) : P v :=
  match v with
  | VNone => HNone
  | VBool b => HBool b
  | VInt n => HInt n
  | VFloat r => HFloat r
  | VStr s => HStr s
  | VList l =>
      HList ((fix elems (xs : list pyval) : Forall P xs :=
                match xs with
                | [] => Forall_nil P
                | x :: xs' => Forall_cons x (pyval_nested_ind x) (elems xs')
                end) l)
  | VDict d =>
      HDict ((fix items (xs : pydict) : Forall (fun kv => P (snd kv)) xs :=
                match xs with
                | [] => Forall_nil _
                | (k, x) :: xs' =>
                    Forall_cons (P := fun kv => P (snd kv)) (k, x)
                      (pyval_nested_ind x) (items xs')
                end) d)
  end.
End PyvalInduction.

(** A schema on which the validator can call [.items()] wherever it gets
    to: in every node with the type tag "object", at any depth, the schema
    entry is absent or is a dict. *)
Fixpoint schema_has_dict_schemas (expected_type : pyval) : bool :=
  match expected_type with
  | VDict et =>
      let type_def := match dict_get et "type" with Some t => t | None => VNone end in
      if py_eq_str type_def "object" then
        dict_get_then "schema" true
          (fun nested_schema =>
             match nested_schema with
             | VDict ns =>
                 forallb (fun entry => let '(_, nested_type) := entry in
                                       schema_has_dict_schemas nested_type) ns
             | _ => false
             end)
          et
      else true
  | _ => true
  end.

(** ** The configuration provider and the route *)

(** [CONFIG_PATH] (main.py, line 9) *)
Definition CONFIG_PATH : string := "config".

(** [path.endswith(suffix)] for a one-character suffix. *)
Fixpoint ends_with_char (path : string) (c : ascii) : bool :=
  match path with
  | EmptyString => false
  | String a EmptyString => Ascii.eqb a c
  | String _ rest => ends_with_char rest c
  end.

(** [os.path.join(a, b)] of the POSIX path module: an absolute [b] replaces
    [a]; otherwise the two are put together with one separator between
    them. *)
Definition path_join (a b : string) : string :=
  if starts_with b "/" then b
  else if negb (str_truthy a) || ends_with_char a "/" then a ++ b
  else a ++ "/" ++ b.

(** A configuration file as [json.load] gives it, for files of the
    documented shape: each of the three keys may be absent. *)
Record consumer_config : Type := {
  cfg_required_fields : option (list string);
  cfg_field_types : option pydict;
  cfg_mappings : option (list (string * string))
}.

(** The file system as [load_consumer_config] uses it: [os.path.exists],
    and [open] followed by [json.load]. *)
Record config_files : Type := {
  path_exists : string -> bool;
  load_json : string -> outcome consumer_config
}.

(** [load_consumer_config(consumer_id)] (main.py, lines 20 to 27) *)
Definition load_consumer_config (fs : config_files) (consumer_id : string)
  : outcome consumer_config :=
  let config_file := path_join CONFIG_PATH (consumer_id ++ ".json") in
  if negb (path_exists fs config_file) then
    Raise (HTTPException 404 ("No config found for consumer: " ++ consumer_id))
  else load_json fs config_file.

(** [IngestRequest] (main.py, lines 13 to 15) *)
Record IngestRequest : Type := {
  consumer_id : string;
  metadata : pydict
}.

(** [config.get(key, default)] on the three keys. *)
Definition get_or {A : Type} (entry : option A) (default : A) : A :=
  match entry with Some x => x | None => default end.

(** The check mark that starts the printed line, U+2705 in UTF-8. *)
Definition check_mark : string :=
  String (ascii_of_nat 226) (String (ascii_of_nat 156) (String (ascii_of_nat 133) "")).

(** The body of the [try] of [ingest] (main.py, lines 126 to 149): the
    lines it prints and what it returns or raises. *)
Definition ingest_try (fs : config_files) (request : IngestRequest)
  : list string * outcome pyval :=
  let consumer_id := consumer_id request in
  let metadata := metadata request in
  match load_consumer_config fs consumer_id with
  | Raise e => ([], Raise e)
  | Return config =>
      match validate_metadata metadata
              (get_or (cfg_required_fields config) [])
              (get_or (cfg_field_types config) []) with
      | Raise e => ([], Raise e)
      | Return _ =>
          let normalized :=
            normalize_metadata metadata (get_or (cfg_mappings config) []) in
          ([check_mark ++ " Normalized message for " ++ consumer_id ++ ": "
            ++ py_str (VDict normalized)],
           Return (VDict [("message",
                           VStr ("Data from " ++ consumer_id ++ " processed successfully"));
                          ("normalized_payload", VDict normalized)]))
      end
  end.

(** [ingest(request)] (main.py, lines 122 to 154): an [HTTPException] of
    the body is raised again, any other exception becomes the 500 error
    whose detail ends with its text. *)
Definition ingest (fs : config_files) (request : IngestRequest)
  : list string * outcome pyval :=
  match ingest_try fs request with
  | (printed, Raise (HTTPException status_code detail)) =>
      (printed, Raise (HTTPException status_code detail))
  | (printed, Raise (AttributeError msg)) =>
      (printed, Raise (HTTPException 500 ("Unexpected error: " ++ msg)))
  | (printed, Return response) => (printed, Return response)
  end.

(** ** Sample configurations *)

(** A configuration with one required field, two typed fields and one
    renamed field. *)
Definition sample_config : consumer_config :=
  {| cfg_required_fields := Some ["full_name"];
     cfg_field_types := Some [("full_name", VStr "string"); ("address", address_schema)];
     cfg_mappings := Some [("full_name", "name")] |}.

(** A configuration file without any of the three keys. *)
Definition empty_config : consumer_config :=
  {| cfg_required_fields := None; cfg_field_types := None; cfg_mappings := None |}.

(** A configuration directory with the files "config/acme.json" and
    "config/blank.json". *)
Definition sample_files : config_files :=
  {| path_exists := fun path =>
       String.eqb path "config/acme.json" || String.eqb path "config/blank.json";
     load_json := fun path =>
       if String.eqb path "config/acme.json" then Return sample_config
       else Return empty_config |}.

(** * Properties *)

(** ** Lemmas on the helpers *)

Lemma dict_get_then_get (R : Type) (key : string) (a : R) (k : pyval -> R) (d : pydict) :
  dict_get_then key a k d =
  match dict_get d key with Some v => k v | None => a end.
Proof.
  induction d as [|[k' v] d IH]; simpl; [reflexivity|].
  destruct (String.eqb k' key); [reflexivity | exact IH].
Qed.

Lemma dict_mem_get (d : pydict) (key : string) :
  dict_mem d key = true <-> exists v, dict_get d key = Some v.
Proof.
  unfold dict_mem. destruct (dict_get d key) as [v|]; split.
  - intros _. now exists v.
  - reflexivity.
  - discriminate.
  - intros [v H]. discriminate.
Qed.

Lemma dict_mem_false_get (d : pydict) (key : string) :
  dict_mem d key = false <-> dict_get d key = None.
Proof.
  unfold dict_mem. destruct (dict_get d key); split; congruence.
Qed.

Lemma dict_item_get (d : pydict) (key : string) (v : pyval) :
  dict_get d key = Some v -> dict_item d key = v.
Proof. unfold dict_item. now intros ->. Qed.

Lemma dict_get_In (d : pydict) (key : string) (v : pyval) :
  dict_get d key = Some v -> In (key, v) d.
Proof.
  induction d as [|[k w] d IH]; simpl; [discriminate|].
  destruct (String.eqb_spec k key) as [->|_].
  - intros [= ->]. now left.
  - intros H. right. auto.
Qed.

Lemma dict_get_None_In (d : pydict) (key : string) (v : pyval) :
  dict_get d key = None -> ~ In (key, v) d.
Proof.
  induction d as [|[k w] d IH]; simpl; [tauto|].
  destruct (String.eqb_spec k key) as [->|Hne]; [discriminate|].
  intros H [[= E _]|Hin]; [congruence | now apply IH].
Qed.

Lemma dict_get_set (d : pydict) (key key' : string) (v : pyval) :
  dict_get (dict_set d key v) key' =
  if String.eqb key key' then Some v else dict_get d key'.
Proof.
  induction d as [|[k w] d IH]; simpl.
  - now destruct (String.eqb key key').
  - destruct (String.eqb_spec k key) as [->|Hne]; simpl.
    + now destruct (String.eqb key key').
    + rewrite IH. destruct (String.eqb_spec k key') as [->|Hne'];
        [|reflexivity].
      destruct (String.eqb_spec key key'); [congruence | reflexivity].
Qed.

Lemma dict_get_absent_key (d : pydict) (key : string) :
  dict_get d key = None -> Forall (fun kx => fst kx <> key) d.
Proof.
  induction d as [|[k w] d IH]; simpl; [constructor|].
  destruct (String.eqb_spec k key) as [->|Hne]; [discriminate|].
  intros H. constructor; auto.
Qed.

(** Keys of a dict after an assignment. *)
Lemma dict_set_keys (d : pydict) (key : string) (v : pyval) :
  map fst (dict_set d key v) =
  if dict_mem d key then map fst d else (map fst d ++ [key])%list.
Proof.
  unfold dict_mem. induction d as [|[k w] d IH]; simpl; [reflexivity|].
  destruct (String.eqb k key); simpl; [reflexivity|].
  rewrite IH. now destruct (dict_get d key).
Qed.

Lemma dict_mem_keys (d : pydict) (key : string) :
  dict_mem d key = true <-> In key (map fst d).
Proof.
  unfold dict_mem. induction d as [|[k w] d IH]; simpl.
  - split; [discriminate | tauto].
  - destruct (String.eqb_spec k key) as [->|Hne].
    + split; [now left | reflexivity].
    + rewrite IH. split; [now right | intros [E|H]; [congruence | exact H]].
Qed.

Lemma dict_set_keys_nodup (d : pydict) (key : string) (v : pyval) :
  NoDup (map fst d) -> NoDup (map fst (dict_set d key v)).
Proof.
  intros Hd. rewrite dict_set_keys.
  destruct (dict_mem d key) eqn:Hm; [exact Hd|].
  apply NoDup_app; [exact Hd | repeat constructor; tauto |].
  intros x Hx [<-|[]]. apply dict_mem_keys in Hx. congruence.
Qed.

Lemma dict_set_length (d : pydict) (key : string) (v : pyval) :
  List.length (dict_set d key v) = if dict_mem d key then List.length d else S (List.length d).
Proof.
  rewrite <- !(List.length_map fst), dict_set_keys.
  destruct (dict_mem d key); [reflexivity|].
  rewrite List.length_app. simpl. lia.
Qed.

Lemma dict_set_mem (d : pydict) (key key' : string) (v : pyval) :
  dict_mem d key' = true -> dict_mem (dict_set d key v) key' = true.
Proof.
  unfold dict_mem. rewrite dict_get_set.
  now destruct (String.eqb key key').
Qed.

Lemma for_items_app (A X : Type) (body : string -> X -> flow A)
    (first rest : list (string * X)) :
  for_items body (first ++ rest) =
  match for_items body first with
  | Next => for_items body rest
  | Returned a => Returned a
  | Raised e => Raised e
  end.
Proof.
  induction first as [|[k x] first IH]; simpl; [reflexivity|].
  destruct (body k x); [exact IH | reflexivity | reflexivity].
Qed.

(** Two loop bodies that agree on the items give the same loop. *)
Lemma for_items_ext (A X : Type) (body1 body2 : string -> X -> flow A)
    (items : list (string * X)) :
  Forall (fun kx => body1 (fst kx) (snd kx) = body2 (fst kx) (snd kx)) items ->
  for_items body1 items = for_items body2 items.
Proof.
  induction 1 as [|[k x] items Hk _ IH]; simpl; [reflexivity|].
  cbn [fst snd] in Hk. now rewrite Hk, IH.
Qed.

(** A loop whose first iterations all go on to the next one continues
    with the remaining items. *)
Lemma for_items_skip (A X : Type) (body : string -> X -> flow A)
    (pre rest : list (string * X)) :
  Forall (fun kx => body (fst kx) (snd kx) = Next) pre ->
  for_items body (pre ++ rest) = for_items body rest.
Proof.
  induction 1 as [|[k x] pre Hk _ IH]; simpl; [reflexivity|].
  simpl in Hk. now rewrite Hk.
Qed.

Lemma for_items_all_next (A X : Type) (body : string -> X -> flow A)
    (items : list (string * X)) :
  Forall (fun kx => body (fst kx) (snd kx) = Next) items ->
  for_items body items = Next.
Proof.
  intros H. rewrite <- (app_nil_r items). now rewrite for_items_skip.
Qed.

(** ** The field validator, one equation per shape of schema *)

Lemma validate_nested_object (field_name : string) (members et : pydict) :
  dict_get et "type" = Some (VStr "object") ->
  validate_field_type field_name (VDict members) (VDict et) =
  match dict_get et "schema" with
  | None => Return None
  | Some (VDict ns) => falls_to None (for_items (nested_step field_name members) ns)
  | Some other => Raise (no_items_attribute other)
  end.
Proof.
  intros Ht. simpl. rewrite Ht. simpl. rewrite dict_get_then_get.
  destruct (dict_get et "schema") as [[]|]; reflexivity.
Qed.

Lemma validate_nested_not_dict (field_name : string) (value : pyval) (et : pydict) :
  dict_get et "type" = Some (VStr "object") ->
  isinstance_dict value = false ->
  validate_field_type field_name value (VDict et) =
  Return (Some ("expected object for '" ++ field_name ++ "', got " ++ type_name value)).
Proof.
  intros Ht Hv. simpl. rewrite Ht. simpl. now rewrite Hv.
Qed.

(** Every message of the validator is a non-empty text, so that the test
    [if error:] holds for each of them. *)
Lemma validate_field_type_message_truthy (expected_type : pyval) :
  forall field_name value error,
    validate_field_type field_name value expected_type = Return (Some error) ->
    str_truthy error = true.
Proof.
  intros field_name value error.
  destruct expected_type as [| b | n | r | s | l | et].
  1-6: simpl;
    repeat match goal with
      | |- context [if ?c then _ else _] => destruct c
      end;
    intros [= <-]; reflexivity.
  destruct (py_eq_str (match dict_get et "type" with Some t => t | None => VNone end)
              "object") eqn:Hobj.
  2: { simpl. rewrite Hobj. intros [= <-]. reflexivity. }
  assert (Ht : dict_get et "type" = Some (VStr "object")).
  { destruct (dict_get et "type") as [[]|]; simpl in Hobj; try discriminate.
    apply String.eqb_eq in Hobj. now subst. }
  destruct (isinstance_dict value) eqn:Hv.
  2: { rewrite validate_nested_not_dict by assumption. intros [= <-]. reflexivity. }
  destruct value as [| | | | | |members]; try discriminate.
  rewrite validate_nested_object by assumption.
  destruct (dict_get et "schema") as [[| | | | | |ns]|]; try discriminate.
  induction ns as [|[nf nt] ns IHns]; simpl; [discriminate|].
  unfold nested_step at 1.
  destruct (dict_get members nf) as [nv|]; [|intros [= <-]; reflexivity].
  destruct (validate_field_type (field_name ++ "." ++ nf) nv nt) as [[e|]|];
    simpl; [|exact IHns|discriminate].
  destruct (str_truthy e) eqn:Et; [|exact IHns].
  intros [= <-]. exact Et.
Qed.

(** ** Primitive tags *)

(** C1 (what the code does): for every field name, a boolean checked
    against the tag "number" is accepted, the validator returns no error.
    [isinstance(value, (int, float))] holds for [True] and [False], because
    [bool] is a subclass of [int]; the specification asks for an error
    here. *)
Theorem number_tag_accepts_boolean :
  forall (field_name : string) (b : bool),
    validate_field_type field_name (VBool b) (VStr "number") = Return None.
Proof. intros field_name b. reflexivity. Qed.

(** The tag "boolean" on the same values, for comparison: only booleans
    pass, so the validator does tell booleans from integers. *)
Lemma boolean_tag_rejects_integer (field_name : string) (n : Z) :
  validate_field_type field_name (VInt n) (VStr "boolean") =
  Return (Some "expected boolean, got int").
Proof. reflexivity. Qed.

(** C6: a value checked against the tag "array_of_object" is accepted
    exactly when it is a list all of whose elements are dicts; and for a
    list with an element that is not a dict the message is one fixed text,
    the same whichever element it is and wherever it stands. *)
Theorem array_of_object_validation :
  forall (field_name : string) (value : pyval),
    (validate_field_type field_name value (VStr "array_of_object") = Return None
     <-> exists items, value = VList items
                       /\ Forall (fun x => isinstance_dict x = true) items)
    /\ (forall items,
          value = VList items ->
          Exists (fun x => isinstance_dict x = false) items ->
          validate_field_type field_name value (VStr "array_of_object") =
          Return (Some "expected array of objects, but one or more elements are not objects")).
Proof.
  intros field_name value. split.
  - split.
    + destruct value as [| | | | |items|]; simpl; try discriminate.
      destruct (forallb isinstance_dict items) eqn:E; simpl; [|discriminate].
      intros _. exists items. split; [reflexivity|].
      now apply Forall_forall, forallb_forall.
    + intros [items [-> H]]. simpl.
      replace (forallb isinstance_dict items) with true; [reflexivity|].
      symmetry. now apply forallb_forall, Forall_forall.
  - intros items -> H. simpl.
    replace (forallb isinstance_dict items) with false; [reflexivity|].
    symmetry. apply not_true_is_false. intros E.
    rewrite forallb_forall in E. apply Exists_exists in H as [x [Hin Hx]].
    specialize (E x Hin). congruence.
Qed.

(** ** Nested-object schema nodes *)

Lemma nested_entry_passes_next (field_name : string) (members : pydict)
    (entries : list (string * pyval)) :
  Forall (nested_entry_passes field_name members) entries ->
  Forall (fun kx => nested_step field_name members (fst kx) (snd kx) = Next) entries.
Proof.
  apply Forall_impl. intros [nf nt] [nv [Hget Hok]]. cbn [fst snd] in *.
  unfold nested_step. now rewrite Hget, Hok.
Qed.

(** C4: for a schema node with type tag "object":
    - a value that is not a dict gives the message
      "expected object for '<path>', got <kind>";
    - on a dict, the schema entries are visited in order: when the entries
      before one all pass and that one's nested field is absent, the result
      is "missing nested field '<nested>' in '<path>'"; when that one's
      nested field is present and the recursive call, made with the path
      [<path>.<nested>], returns an error, the result is that error,
      whatever the entries after it are; when all entries pass, there is
      no error;
    - the schema {city: string, zip: number} at "address" accepts
      {city: "NYC", zip: 10001} and answers {city: "NYC"} with the
      missing nested field zip of address. *)
Theorem nested_object_schema_validation :
  forall (field_name : string) (value : pyval) (et : pydict),
    dict_get et "type" = Some (VStr "object") ->
    (isinstance_dict value = false ->
     validate_field_type field_name value (VDict et) =
     Return (Some ("expected object for '" ++ field_name ++ "', got " ++ type_name value)))
    /\ (forall members pre nested_field nested_type post,
          value = VDict members ->
          dict_get et "schema" = Some (VDict (pre ++ (nested_field, nested_type) :: post)) ->
          Forall (nested_entry_passes field_name members) pre ->
          (dict_get members nested_field = None ->
           validate_field_type field_name value (VDict et) =
           Return (Some ("missing nested field '" ++ nested_field
                         ++ "' in '" ++ field_name ++ "'")))
          /\ (forall nested_value error,
                dict_get members nested_field = Some nested_value ->
                validate_field_type (field_name ++ "." ++ nested_field)
                  nested_value nested_type = Return (Some error) ->
                validate_field_type field_name value (VDict et) = Return (Some error)))
    /\ (forall members ns,
          value = VDict members ->
          dict_get et "schema" = Some (VDict ns) ->
          Forall (nested_entry_passes field_name members) ns ->
          validate_field_type field_name value (VDict et) = Return None)
    /\ validate_field_type "address" address_full address_schema = Return None
    /\ validate_field_type "address" address_no_zip address_schema =
       Return (Some "missing nested field 'zip' in 'address'").
Proof.
  intros field_name value et Ht. split; [|split; [|split; [|split]]].
  - intros Hv. now apply validate_nested_not_dict.
  - intros members pre nested_field nested_type post -> Hs Hpre.
    rewrite validate_nested_object by assumption.
    rewrite Hs. rewrite for_items_skip by now apply nested_entry_passes_next.
    cbn [for_items]. split.
    + intros Hget. unfold nested_step at 1. now rewrite Hget.
    + intros nested_value error Hget Herr. unfold nested_step at 1.
      rewrite Hget, Herr. cbn [return_if_error].
      now rewrite (validate_field_type_message_truthy _ _ _ Herr).
  - intros members ns -> Hs Hall.
    rewrite validate_nested_object by assumption.
    rewrite Hs. rewrite for_items_all_next by now apply nested_entry_passes_next.
    reflexivity.
  - reflexivity.
  - reflexivity.
Qed.

(** C9: a schema node with type tag "object" that has no schema entry, or
    an empty one, accepts every dict, whatever the dict holds. *)
Theorem object_node_without_schema_accepts_any_dict :
  forall (field_name : string) (members et : pydict),
    dict_get et "type" = Some (VStr "object") ->
    dict_get et "schema" = None \/ dict_get et "schema" = Some (VDict []) ->
    validate_field_type field_name (VDict members) (VDict et) = Return None.
Proof.
  intros field_name members et Ht Hs.
  rewrite validate_nested_object by assumption.
  destruct Hs as [-> | ->]; reflexivity.
Qed.

(** ** The metadata validator *)

Lemma validate_metadata_unfold (metadata : pydict)
    (required_fields : list string) (field_types : pydict) :
  validate_metadata metadata required_fields field_types =
  if list_truthy (missing_fields metadata required_fields) then
    Raise (HTTPException 400
             ("Missing required fields: "
              ++ py_str (VList (map VStr (missing_fields metadata required_fields)))))
  else falls_to tt (for_items (typed_field_step metadata) field_types).
Proof. reflexivity. Qed.

Lemma validate_metadata_all_present (metadata : pydict)
    (required_fields : list string) (field_types : pydict) :
  missing_fields metadata required_fields = [] ->
  validate_metadata metadata required_fields field_types =
  falls_to tt (for_items (typed_field_step metadata) field_types).
Proof. rewrite validate_metadata_unfold. now intros ->. Qed.

Lemma missing_fields_In (metadata : pydict) (required_fields : list string)
    (f : string) :
  In f (missing_fields metadata required_fields) <->
  In f required_fields /\ dict_mem metadata f = false.
Proof.
  unfold missing_fields. rewrite filter_In, negb_true_iff. reflexivity.
Qed.

Lemma missing_fields_nil (metadata : pydict) (required_fields : list string) :
  missing_fields metadata required_fields = [] <->
  forall f, In f required_fields -> dict_mem metadata f = true.
Proof.
  split.
  - intros E f Hin. destruct (dict_mem metadata f) eqn:Hm; [reflexivity|].
    assert (H : In f (missing_fields metadata required_fields))
      by now apply missing_fields_In.
    rewrite E in H. destruct H.
  - intros H. destruct (missing_fields metadata required_fields) as [|f l] eqn:E;
      [reflexivity|].
    assert (Hin : In f (missing_fields metadata required_fields))
      by (rewrite E; now left).
    apply missing_fields_In in Hin as [Hin Hm].
    rewrite (H f Hin) in Hm. discriminate.
Qed.




Lemma typed_entry_passes_next (metadata : pydict) (entries : pydict) :
  Forall (typed_entry_passes metadata) entries ->
  Forall (fun kx => typed_field_step metadata (fst kx) (snd kx) = Next) entries.
Proof.
  apply Forall_impl. intros [f t] [Habs | [v [Hget Hok]]]; cbn [fst snd] in *;
    unfold typed_field_step.
  - now rewrite Habs.
  - rewrite (dict_item_get _ _ Hget), Hok.
    now destruct (dict_mem metadata f).
Qed.

Lemma validate_metadata_returns (metadata : pydict)
    (required_fields : list string) (field_types : pydict) :
  (forall f, In f required_fields -> dict_mem metadata f = true) ->
  (forall field expected_type value,
      In (field, expected_type) field_types ->
      dict_get metadata field = Some value ->
      validate_field_type field value expected_type = Return None) ->
  validate_metadata metadata required_fields field_types = Return tt.
Proof.
  intros Hreq Htyped.
  rewrite validate_metadata_all_present by now apply missing_fields_nil.
  rewrite for_items_all_next; [reflexivity|].
  apply typed_entry_passes_next, Forall_forall.
  intros [f t] Hin. unfold typed_entry_passes. cbn [fst snd].
  destruct (dict_get metadata f) as [v|] eqn:Hget.
  - right. exists v. split; [reflexivity|]. now apply Htyped.
  - left. now apply dict_mem_false_get.
Qed.

Lemma validate_metadata_skips_absent (metadata : pydict)
    (required_fields : list string) (before after : pydict)
    (field : string) (expected_type : pyval) :
  dict_mem metadata field = false ->
  validate_metadata metadata required_fields
    (before ++ (field, expected_type) :: after)%list =
  validate_metadata metadata required_fields (before ++ after)%list.
Proof.
  intros Habs. rewrite !validate_metadata_unfold.
  destruct (list_truthy (missing_fields metadata required_fields)); [reflexivity|].
  f_equal.
  assert (Hskip : typed_field_step metadata field expected_type = Next)
    by (unfold typed_field_step; now rewrite Habs).
  rewrite !for_items_app. cbn [for_items]. now rewrite Hskip.
Qed.

(** C3: when every required field is a key of the metadata and the
    validator returns no error for every typed field that is a key of the
    metadata, [validate_metadata] returns without raising; and an entry of
    the field-types map whose field is not a key of the metadata is
    skipped: the outcome is the same as without that entry. *)
Theorem validate_metadata_succeeds :
  (forall (metadata : pydict) (required_fields : list string) (field_types : pydict),
      (forall f, In f required_fields -> dict_mem metadata f = true) ->
      (forall field expected_type value,
          In (field, expected_type) field_types ->
          dict_get metadata field = Some value ->
          validate_field_type field value expected_type = Return None) ->
      validate_metadata metadata required_fields field_types = Return tt)
  /\ (forall (metadata : pydict) (required_fields : list string)
             (before after : pydict) (field : string) (expected_type : pyval),
        dict_mem metadata field = false ->
        validate_metadata metadata required_fields
          (before ++ (field, expected_type) :: after)%list =
        validate_metadata metadata required_fields (before ++ after)%list).
Proof.
  split.
  - exact validate_metadata_returns.
  - intros. now apply validate_metadata_skips_absent.
Qed.

(** ** Required fields whose value is null *)

(** C10: the presence check looks at the keys only.  A required field
    whose value is [None] is not listed as missing, and requiring it
    changes nothing in the outcome; when it has no entry in the field-types
    map either, and the other required fields are present and the typed
    fields pass, [validate_metadata] returns without raising although the
    field is [None]; and putting [None] in a field that has no entry in the
    field-types map leaves the outcome as it was. *)
Theorem null_required_field_counts_as_present :
  (forall (metadata : pydict) (required_fields : list string) (f : string),
      dict_get metadata f = Some VNone ->
      ~ In f (missing_fields metadata required_fields))
  /\ (forall (metadata : pydict) (required_fields : list string)
             (field_types : pydict) (f : string),
        dict_get metadata f = Some VNone ->
        validate_metadata metadata (f :: required_fields) field_types =
        validate_metadata metadata required_fields field_types)
  /\ (forall (metadata : pydict) (required_fields : list string)
             (field_types : pydict) (f : string),
        dict_get metadata f = Some VNone ->
        In f required_fields ->
        dict_get field_types f = None ->
        (forall g, In g required_fields -> g <> f -> dict_mem metadata g = true) ->
        (forall field expected_type value,
            In (field, expected_type) field_types ->
            dict_get metadata field = Some value ->
            validate_field_type field value expected_type = Return None) ->
        validate_metadata metadata required_fields field_types = Return tt)
  /\ (forall (metadata : pydict) (required_fields : list string)
             (field_types : pydict) (f : string),
        dict_mem metadata f = true ->
        dict_get field_types f = None ->
        validate_metadata (dict_set metadata f VNone) required_fields field_types =
        validate_metadata metadata required_fields field_types).
Proof.
  assert (Hpresent : forall (metadata : pydict) f,
             dict_get metadata f = Some VNone -> dict_mem metadata f = true).
  { intros metadata f H. apply dict_mem_get. now exists VNone. }
  split; [|split; [|split]].
  - intros metadata required_fields f Hnull Hin.
    apply missing_fields_In in Hin as [_ Hm].
    rewrite (Hpresent _ _ Hnull) in Hm. discriminate.
  - intros metadata required_fields field_types f Hnull.
    rewrite !validate_metadata_unfold. unfold missing_fields at 1 2. cbn [filter].
    now rewrite (Hpresent _ _ Hnull).
  - intros metadata required_fields field_types f Hnull _ _ Hothers Htyped.
    apply validate_metadata_returns; [|exact Htyped].
    intros g Hin. destruct (String.eqb_spec g f) as [->|Hne].
    + now apply Hpresent.
    + now apply Hothers.
  - intros metadata required_fields field_types f Hmem Htype.
    assert (Hm : forall g, dict_mem (dict_set metadata f VNone) g = dict_mem metadata g).
    { intros g. unfold dict_mem at 1. rewrite dict_get_set.
      destruct (String.eqb_spec f g) as [<-|_]; [now rewrite Hmem | reflexivity]. }
    rewrite !validate_metadata_unfold.
    replace (missing_fields (dict_set metadata f VNone) required_fields)
      with (missing_fields metadata required_fields)
      by (unfold missing_fields; apply filter_ext; intros g; now rewrite Hm).
    destruct (list_truthy (missing_fields metadata required_fields)); [reflexivity|].
    f_equal. apply for_items_ext.
    eapply Forall_impl; [|exact (dict_get_absent_key _ _ Htype)].
    intros [g t] Hne. cbn [fst snd] in *. unfold typed_field_step.
    rewrite Hm. unfold dict_item. rewrite dict_get_set.
    destruct (String.eqb_spec f g); [congruence | reflexivity].
Qed.

(** ** Unsupported type tags *)


Lemma starts_with_app (part rest : string) : starts_with (part ++ rest) part = true.
Proof.
  induction part as [|a part IH]; [now destruct rest|].
  simpl. now rewrite Ascii.eqb_refl.
Qed.






(** ** The normaliser *)

Lemma normalize_metadata_loop (metadata : pydict) (mappings : list (string * string)) :
  normalize_metadata metadata mappings = normalize_loop metadata mappings [].
Proof. reflexivity. Qed.

Lemma normalize_loop_cons (metadata : pydict) (entry : string * string)
    (mappings : list (string * string)) (acc : pydict) :
  normalize_loop metadata (entry :: mappings) acc =
  normalize_loop metadata mappings (normalize_step metadata acc entry).
Proof. reflexivity. Qed.

Lemma normalize_loop_app (metadata : pydict) (first rest : list (string * string))
    (acc : pydict) :
  normalize_loop metadata (first ++ rest) acc =
  normalize_loop metadata rest (normalize_loop metadata first acc).
Proof. apply fold_left_app. Qed.

Section NormalizeLoop.
Variable metadata : pydict.

(** A value found in the result was in the accumulator or comes from a
    mapping entry whose consumer key is present. *)
Lemma normalize_loop_origin (mappings : list (string * string)) :
  forall (acc : pydict) (internal_key : string) (v : pyval),
    dict_get (normalize_loop metadata mappings acc) internal_key = Some v ->
    dict_get acc internal_key = Some v
    \/ exists consumer_key,
         In (consumer_key, internal_key) mappings
         /\ dict_get metadata consumer_key = Some v.
Proof.
  induction mappings as [|[c k] mappings IH]; intros acc ik v.
  - now left.
  - rewrite normalize_loop_cons. intros H.
    apply IH in H as [H | [ck [Hin Hget]]].
    + unfold normalize_step in H.
      destruct (dict_get metadata c) as [w|] eqn:Hc; [|now left].
      rewrite dict_get_set in H.
      destruct (String.eqb_spec k ik) as [->|_]; [|now left].
      injection H as ->. right. exists c. split; [now left | exact Hc].
    + right. exists ck. split; [now right | exact Hget].
Qed.

(** Entries that do not write a key leave its value as it is. *)
Lemma normalize_loop_untouched (mappings : list (string * string)) :
  forall (acc : pydict) (internal_key : string),
    (forall c, In (c, internal_key) mappings -> dict_mem metadata c = false) ->
    dict_get (normalize_loop metadata mappings acc) internal_key
    = dict_get acc internal_key.
Proof.
  induction mappings as [|[c k] mappings IH]; intros acc ik Hno;
    [reflexivity|].
  rewrite normalize_loop_cons.
  rewrite IH by (intros c' Hin; apply Hno; now right).
  unfold normalize_step.
  destruct (dict_get metadata c) as [w|] eqn:Hc; [|reflexivity].
  rewrite dict_get_set.
  destruct (String.eqb_spec k ik) as [->|_]; [|reflexivity].
  specialize (Hno c (or_introl eq_refl)).
  apply dict_mem_false_get in Hno. congruence.
Qed.

(** The last present entry that writes a key decides its value. *)
Lemma normalize_loop_last (before after : list (string * string))
    (consumer_key internal_key : string) (v : pyval) (acc : pydict) :
  dict_get metadata consumer_key = Some v ->
  (forall c, In (c, internal_key) after -> dict_mem metadata c = false) ->
  dict_get
    (normalize_loop metadata (before ++ (consumer_key, internal_key) :: after) acc)
    internal_key
  = Some v.
Proof.
  intros Hget Hno. rewrite normalize_loop_app, normalize_loop_cons.
  rewrite normalize_loop_untouched by exact Hno.
  unfold normalize_step. rewrite Hget, dict_get_set.
  now rewrite String.eqb_refl.
Qed.

Lemma normalize_loop_keys_nodup (mappings : list (string * string)) :
  forall acc, NoDup (map fst acc) ->
              NoDup (map fst (normalize_loop metadata mappings acc)).
Proof.
  induction mappings as [|[c k] mappings IH]; intros acc Hacc; [exact Hacc|].
  rewrite normalize_loop_cons. apply IH. unfold normalize_step.
  destruct (dict_get metadata c); [now apply dict_set_keys_nodup | exact Hacc].
Qed.
End NormalizeLoop.

Lemma normalize_step_mem (metadata acc : pydict) (entry : string * string)
    (key : string) :
  dict_mem acc key = true -> dict_mem (normalize_step metadata acc entry) key = true.
Proof.
  destruct entry as [c k]. unfold normalize_step.
  destruct (dict_get metadata c); [apply dict_set_mem | trivial].
Qed.

Lemma normalize_loop_mem (metadata : pydict) (mappings : list (string * string)) :
  forall (acc : pydict) (key : string),
    dict_mem acc key = true -> dict_mem (normalize_loop metadata mappings acc) key = true.
Proof.
  induction mappings as [|entry mappings IH]; intros acc key H; [exact H|].
  rewrite normalize_loop_cons. now apply IH, normalize_step_mem.
Qed.

(** Each present entry adds at most one key. *)
Lemma normalize_loop_length (metadata : pydict) (mappings : list (string * string)) :
  forall acc,
    List.length (normalize_loop metadata mappings acc)
    <= List.length acc + List.length (present_entries metadata mappings).
Proof.
  induction mappings as [|[c k] mappings IH]; intros acc.
  - simpl. lia.
  - rewrite normalize_loop_cons. specialize (IH (normalize_step metadata acc (c, k))).
    unfold present_entries in *. cbn [filter fst]. unfold normalize_step in *.
    destruct (dict_get metadata c) as [w|] eqn:Hc.
    + replace (dict_mem metadata c) with true
        by (symmetry; apply dict_mem_get; eauto).
      rewrite dict_set_length in IH. cbn [List.length].
      destruct (dict_mem acc k); lia.
    + replace (dict_mem metadata c) with false
        by (symmetry; now apply dict_mem_false_get).
      lia.
Qed.

(** An entry that writes a key already there adds none. *)
Lemma normalize_loop_collision_length (metadata : pydict)
    (first between rest : list (string * string)) (c1 c2 internal_key : string) :
  dict_mem metadata c1 = true ->
  dict_mem metadata c2 = true ->
  List.length (normalize_metadata metadata
            (first ++ (c1, internal_key) :: between ++ (c2, internal_key) :: rest))
  < List.length (present_entries metadata
              (first ++ (c1, internal_key) :: between ++ (c2, internal_key) :: rest)).
Proof.
  intros H1 H2. apply dict_mem_get in H1 as H1'. destruct H1' as [v1 G1].
  apply dict_mem_get in H2 as H2'. destruct H2' as [v2 G2].
  rewrite normalize_metadata_loop.
  rewrite normalize_loop_app, normalize_loop_cons, normalize_loop_app,
    normalize_loop_cons.
  unfold present_entries. rewrite !filter_app. cbn [filter fst].
  rewrite !filter_app. cbn [filter fst]. rewrite H1, H2.
  rewrite !List.length_app. cbn [List.length]. rewrite List.length_app. cbn [List.length].
  fold (present_entries metadata first) (present_entries metadata between)
    (present_entries metadata rest).
  set (A1 := normalize_loop metadata first []).
  set (A2 := normalize_step metadata A1 (c1, internal_key)).
  set (A3 := normalize_loop metadata between A2).
  set (A4 := normalize_step metadata A3 (c2, internal_key)).
  pose proof (normalize_loop_length metadata first []) as L1. fold A1 in L1.
  assert (L2 : List.length A2 <= S (List.length A1)).
  { unfold A2, normalize_step. rewrite G1, dict_set_length.
    destruct (dict_mem A1 internal_key); lia. }
  assert (M2 : dict_mem A2 internal_key = true).
  { unfold A2, normalize_step, dict_mem. rewrite G1, dict_get_set.
    now rewrite String.eqb_refl. }
  pose proof (normalize_loop_length metadata between A2) as L3. fold A3 in L3.
  assert (M3 : dict_mem A3 internal_key = true) by now apply normalize_loop_mem.
  assert (L4 : List.length A4 = List.length A3).
  { unfold A4, normalize_step. rewrite G2, dict_set_length. now rewrite M3. }
  pose proof (normalize_loop_length metadata rest A4) as L5.
  simpl in L1. lia.
Qed.

(** C7 (as stated, refuted): it is not so that the key of every mapping
    entry whose consumer key is present holds that consumer key's value:
    with the rename map {a: x, b: x} and the metadata {a: 1, b: 2} the
    result is {x: 2}, and the entry (a, x) does not find its value 1. *)
Lemma normalize_metadata_colliding_targets :
  ~ (forall (metadata : pydict) (mappings : list (string * string))
            (consumer_key internal_key : string) (v : pyval),
        In (consumer_key, internal_key) mappings ->
        dict_get metadata consumer_key = Some v ->
        dict_get (normalize_metadata metadata mappings) internal_key = Some v).
Proof.
  intros H.
  specialize (H [("a", VInt 1); ("b", VInt 2)] [("a", "x"); ("b", "x")]
                "a" "x" (VInt 1) (or_introl eq_refl) eq_refl).
  vm_compute in H. discriminate.
Qed.

(** C7 (amended): [normalize_metadata] is a total function of the metadata
    and the rename map, which it only reads, and its result is the dict
    with distinct keys in which
    - every key is the internal key of a mapping entry whose consumer key
      is in the metadata, and holds that consumer key's value: keys of the
      metadata that the map does not rename are dropped, and a mapped
      consumer key that is absent from the metadata produces no key;
    - the internal key of a mapping entry whose consumer key is in the
      metadata holds that consumer key's value, provided no later entry
      with a present consumer key has the same internal key. *)
Theorem normalize_metadata_characterisation :
  forall (metadata : pydict) (mappings : list (string * string)),
    NoDup (map fst (normalize_metadata metadata mappings))
    /\ (forall internal_key v,
          dict_get (normalize_metadata metadata mappings) internal_key = Some v ->
          exists consumer_key,
            In (consumer_key, internal_key) mappings
            /\ dict_get metadata consumer_key = Some v)
    /\ (forall before after consumer_key internal_key v,
          mappings = (before ++ (consumer_key, internal_key) :: after)%list ->
          dict_get metadata consumer_key = Some v ->
          (forall c, In (c, internal_key) after -> dict_mem metadata c = false) ->
          dict_get (normalize_metadata metadata mappings) internal_key = Some v).
Proof.
  intros metadata mappings. rewrite normalize_metadata_loop. split; [|split].
  - apply normalize_loop_keys_nodup. constructor.
  - intros internal_key v H.
    apply normalize_loop_origin in H as [H | H]; [discriminate | exact H].
  - intros before after consumer_key internal_key v -> Hget Hno.
    now apply normalize_loop_last.
Qed.

(** C8: when two distinct consumer keys of the rename map have the same
    internal key and both are in the metadata, the result holds under that
    internal key the value of the one that comes later in the map (no
    entry after it writing the same key), and the result has fewer entries
    than there are mapped consumer keys present in the metadata. *)
Theorem normalize_metadata_last_write_wins :
  forall (metadata : pydict) (first between rest : list (string * string))
         (c1 c2 internal_key : string) (v1 v2 : pyval),
    c1 <> c2 ->
    dict_get metadata c1 = Some v1 ->
    dict_get metadata c2 = Some v2 ->
    (forall c, In (c, internal_key) rest -> dict_mem metadata c = false) ->
    let mappings :=
      (first ++ (c1, internal_key) :: between ++ (c2, internal_key) :: rest)%list in
    dict_get (normalize_metadata metadata mappings) internal_key = Some v2
    /\ List.length (normalize_metadata metadata mappings)
       < List.length (present_entries metadata mappings).
Proof.
  intros metadata first between rest c1 c2 internal_key v1 v2 _ G1 G2 Hno mappings.
  split.
  - unfold mappings. rewrite normalize_metadata_loop.
    replace (first ++ (c1, internal_key) :: between ++ (c2, internal_key) :: rest)%list
      with ((first ++ (c1, internal_key) :: between) ++ (c2, internal_key) :: rest)%list
      by (rewrite <- app_assoc; reflexivity).
    now apply normalize_loop_last.
  - apply normalize_loop_collision_length; apply dict_mem_get; eauto.
Qed.

(** * The statements on concrete inputs *)


(** C3 on a metadata with a typed field present and a typed field absent. *)
Lemma validate_metadata_succeeds_example :
  validate_metadata [("name", VStr "X"); ("age", VInt 3)] ["name"]
    [("age", VStr "number"); ("address", address_schema)] = Return tt.
Proof.
  apply (proj1 validate_metadata_succeeds).
  - intros f [<- | []]. reflexivity.
  - intros field expected_type value [E | [E | []]];
      injection E as <- <-; simpl; intros [= <-]; reflexivity.
Defined.

(** C4 on {city: "NYC", zip: "x"}: city passes, and the error of zip is the
    result. *)
Lemma nested_object_schema_validation_example :
  validate_field_type "address" (VDict [("city", VStr "NYC"); ("zip", VStr "x")])
    address_schema = Return (Some "expected number, got str").
Proof.
  pose proof (nested_object_schema_validation "address"
                (VDict [("city", VStr "NYC"); ("zip", VStr "x")])
                [("type", VStr "object");
                 ("schema", VDict [("city", VStr "string"); ("zip", VStr "number")])]
                eq_refl) as [_ [H _]].
  destruct (H [("city", VStr "NYC"); ("zip", VStr "x")]
              [("city", VStr "string")] "zip" (VStr "number") [] eq_refl eq_refl)
    as [_ Herr].
  - constructor; [|constructor]. exists (VStr "NYC"). split; reflexivity.
  - apply (Herr (VStr "x")); reflexivity.
Defined.


(** C6 on the lists of the specification: [{a: 1}, {a: 2}] passes and
    [{a: 1}, 5] does not. *)
Lemma array_of_object_validation_example :
  validate_field_type "items" (VList [VDict [("a", VInt 1)]; VDict [("a", VInt 2)]])
    (VStr "array_of_object") = Return None
  /\ validate_field_type "items" (VList [VDict [("a", VInt 1)]; VInt 5])
       (VStr "array_of_object") =
     Return (Some "expected array of objects, but one or more elements are not objects").
Proof.
  split.
  - apply (proj1 (array_of_object_validation "items" _)).
    eexists. split; [reflexivity|]. repeat constructor.
  - apply (proj2 (array_of_object_validation "items" _) _ eq_refl).
    apply Exists_cons_tl, Exists_cons_hd. reflexivity.
Defined.

(** C7 on the rename of the specification: full_name becomes name, the
    unmapped field is dropped. *)
Lemma normalize_metadata_characterisation_example :
  dict_get
    (normalize_metadata [("full_name", VStr "X"); ("other", VInt 2)]
       [("full_name", "name"); ("nickname", "alias")]) "name" = Some (VStr "X").
Proof.
  apply (proj2 (proj2 (normalize_metadata_characterisation
                         [("full_name", VStr "X"); ("other", VInt 2)]
                         [("full_name", "name"); ("nickname", "alias")]))
           [] [("nickname", "alias")] "full_name" "name" (VStr "X")).
  - reflexivity.
  - reflexivity.
  - intros c [E | []]. discriminate.
Defined.

(** C8 on the rename map {a: x, b: x} and the metadata {a: 1, b: 2}. *)
Lemma normalize_metadata_last_write_wins_example :
  dict_get (normalize_metadata [("a", VInt 1); ("b", VInt 2)] [("a", "x"); ("b", "x")])
    "x" = Some (VInt 2)
  /\ List.length
       (normalize_metadata [("a", VInt 1); ("b", VInt 2)] [("a", "x"); ("b", "x")])
     < List.length
         (present_entries [("a", VInt 1); ("b", VInt 2)] [("a", "x"); ("b", "x")]).
Proof.
  apply (normalize_metadata_last_write_wins [("a", VInt 1); ("b", VInt 2)]
           [] [] [] (c1 := "a") (c2 := "b") "x" (v1 := VInt 1) (v2 := VInt 2)).
  - discriminate.
  - reflexivity.
  - reflexivity.
  - intros c [].
Defined.

(** C9 on a node that has the type tag alone. *)
Lemma object_node_without_schema_accepts_any_dict_example :
  validate_field_type "extra" (VDict [("anything", VList [VInt 1; VNone])])
    (VDict [("type", VStr "object")]) = Return None.
Proof.
  apply object_node_without_schema_accepts_any_dict.
  - reflexivity.
  - left. reflexivity.
Defined.

(** C10 on the metadata {note: null} with note required and untyped. *)
Lemma null_required_field_counts_as_present_example :
  validate_metadata [("note", VNone)] ["note"] [("age", VStr "number")] = Return tt.
Proof.
  apply (proj1 (proj2 (proj2 null_required_field_counts_as_present))
           [("note", VNone)] ["note"] [("age", VStr "number")] "note").
  - reflexivity.
  - now left.
  - reflexivity.
  - intros g [<- | []] Hne. now destruct Hne.
  - intros field expected_type value [E | []]. injection E as <- <-. discriminate.
Defined.

(** * Further properties of the engine *)

(** ** Lemmas on loops and schemas *)

Lemma for_items_raised_inv (A X : Type) (body : string -> X -> flow A)
    (items : list (string * X)) (e : exn) :
  for_items body items = Raised e ->
  exists k x, In (k, x) items /\ body k x = Raised e.
Proof.
  induction items as [|[k x] items IH]; simpl; [discriminate|].
  destruct (body k x) eqn:Hb.
  - intros H. destruct (IH H) as [k' [x' [Hin Hr]]].
    exists k', x'. split; [now right | exact Hr].
  - discriminate.
  - intros [= ->]. exists k, x. split; [now left | exact Hb].
Qed.

Lemma for_items_returned_inv (A X : Type) (body : string -> X -> flow A)
    (items : list (string * X)) (a : A) :
  for_items body items = Returned a ->
  exists first k x rest,
    items = (first ++ (k, x) :: rest)%list
    /\ Forall (fun kx => body (fst kx) (snd kx) = Next) first
    /\ body k x = Returned a.
Proof.
  induction items as [|[k x] items IH]; simpl; [discriminate|].
  destruct (body k x) eqn:Hb.
  - intros H. destruct (IH H) as [first [k' [x' [rest [-> [Hf Hr]]]]]].
    exists ((k, x) :: first), k', x', rest. repeat split; [|exact Hr].
    constructor; [exact Hb | exact Hf].
  - intros [= ->]. exists [], k, x, items. repeat split; [constructor | exact Hb].
  - discriminate.
Qed.

Lemma for_items_next_inv (A X : Type) (body : string -> X -> flow A)
    (items : list (string * X)) :
  for_items body items = Next ->
  Forall (fun kx => body (fst kx) (snd kx) = Next) items.
Proof.
  induction items as [|[k x] items IH]; simpl; [constructor|].
  destruct (body k x) eqn:Hb; try discriminate.
  intros H. constructor; [exact Hb | now apply IH].
Qed.

Lemma type_def_object (et : pydict) :
  py_eq_str (match dict_get et "type" with Some t => t | None => VNone end) "object"
  = true <->
  dict_get et "type" = Some (VStr "object").
Proof.
  split.
  - destruct (dict_get et "type") as [[]|]; simpl; try discriminate.
    intros H. apply String.eqb_eq in H. now subst.
  - now intros ->.
Qed.

Lemma validate_not_object_node (field_name : string) (value : pyval) (et : pydict) :
  dict_get et "type" <> Some (VStr "object") ->
  validate_field_type field_name value (VDict et) =
  Return (Some ("unsupported nested type structure in '" ++ field_name ++ "'")).
Proof.
  intros Ht. cbn [validate_field_type].
  destruct (py_eq_str (match dict_get et "type" with Some t => t | None => VNone end)
              "object") eqn:E; [|reflexivity].
  apply type_def_object in E. contradiction.
Qed.

(** Induction on schemas: a property of a dict follows from the property
    of the nested types of its schema entry. *)
Lemma schema_ind (P : pyval -> Prop) :
  (forall t, isinstance_dict t = false -> P t) ->
  (forall et,
      (forall ns, dict_get et "schema" = Some (VDict ns) ->
                  Forall (fun entry => P (snd entry)) ns) ->
      P (VDict et)) ->
  forall t, P t.
Proof.
  intros Hleaf Hnode.
  assert (Hdeep : forall t,
             P t /\ (forall d, t = VDict d -> Forall (fun entry => P (snd entry)) d)).
  { induction t as [| b | n | r | s | l _ | d IH] using pyval_nested_ind;
      try (split; [now apply Hleaf | discriminate]).
    assert (Hd : Forall (fun entry => P (snd entry)) d).
    { eapply Forall_impl; [|exact IH]. now intros entry [H _]. }
    split.
    - apply Hnode. intros ns Hs. apply dict_get_In in Hs.
      rewrite Forall_forall in IH. now apply (IH _ Hs).
    - now intros d' [= <-]. }
  intros t. apply Hdeep.
Qed.

Lemma schema_has_dict_schemas_node (et : pydict) :
  dict_get et "type" = Some (VStr "object") ->
  schema_has_dict_schemas (VDict et) =
  match dict_get et "schema" with
  | None => true
  | Some (VDict ns) =>
      forallb (fun entry => let '(_, nested_type) := entry in
                            schema_has_dict_schemas nested_type) ns
  | Some _ => false
  end.
Proof.
  intros Ht. cbn [schema_has_dict_schemas]. rewrite Ht. cbn [py_eq_str].
  rewrite String.eqb_refl, dict_get_then_get.
  destruct (dict_get et "schema") as [[]|]; reflexivity.
Qed.

Lemma validate_tag_returns (field_name : string) (value expected_type : pyval) :
  isinstance_dict expected_type = false ->
  exists r, validate_field_type field_name value expected_type = Return r.
Proof.
  intros Hd. destruct expected_type; try discriminate; cbn [validate_field_type];
    repeat match goal with
      | |- context [if ?c then _ else _] => destruct c
      end;
    eexists; reflexivity.
Qed.

Lemma nested_step_raised (field_name : string) (members : pydict)
    (nested_field : string) (nested_type : pyval) (e : exn) :
  nested_step field_name members nested_field nested_type = Raised e ->
  exists nested_value,
    validate_field_type (field_name ++ "." ++ nested_field) nested_value nested_type
    = Raise e.
Proof.
  unfold nested_step. destruct (dict_get members nested_field) as [nv|];
    [|discriminate].
  destruct (validate_field_type (field_name ++ "." ++ nested_field) nv nested_type)
    as [[msg|]|e'] eqn:E; cbn [return_if_error]; try discriminate.
  - destruct (str_truthy msg); discriminate.
  - intros [= ->]. now exists nv.
Qed.

Lemma validate_field_type_raise_inv :
  forall (expected_type : pyval) (field_name : string) (value : pyval) (e : exn),
    validate_field_type field_name value expected_type = Raise e ->
    exists other, isinstance_dict other = false /\ e = no_items_attribute other.
Proof.
  intros expected_type. pattern expected_type. apply schema_ind; clear expected_type.
  - intros t Hd field_name value e H.
    destruct (validate_tag_returns field_name value t Hd) as [r Hr]. congruence.
  - intros et IH field_name value e.
    destruct (py_eq_str (match dict_get et "type" with Some t => t | None => VNone end)
                "object") eqn:Hobj.
    2: { rewrite validate_not_object_node; [discriminate|].
         intros Ht. apply type_def_object in Ht. congruence. }
    apply type_def_object in Hobj.
    destruct (isinstance_dict value) eqn:Hv.
    2: { rewrite validate_nested_not_dict by assumption. discriminate. }
    destruct value as [| | | | | |members]; try discriminate.
    rewrite validate_nested_object by assumption.
    destruct (dict_get et "schema") as [sch|] eqn:Hs; [|discriminate].
    destruct sch as [| | | | | |ns];
      try (intros [= <-]; eexists; split; [|reflexivity]; reflexivity).
    specialize (IH ns eq_refl).
    destruct (for_items (nested_step field_name members) ns) eqn:Hloop;
      cbn [falls_to]; try discriminate.
    intros [= ->].
    apply for_items_raised_inv in Hloop as [nf [nt [Hin Hstep]]].
    apply nested_step_raised in Hstep as [nv Hraise].
    rewrite Forall_forall in IH. exact (IH (nf, nt) Hin _ _ _ Hraise).
Qed.

(** ** The field validator *)

(** X1: the only exception that [validate_field_type] raises is the
    [AttributeError] of [.items()] on a schema entry that is not a dict; it
    never raises an [HTTPException]. *)
Theorem validate_field_type_raises_only_on_schema_items :
  forall (expected_type : pyval) (field_name : string) (value : pyval) (e : exn),
    validate_field_type field_name value expected_type = Raise e ->
    exists other, isinstance_dict other = false /\ e = no_items_attribute other.
Proof. exact validate_field_type_raise_inv. Qed.

(** X2: on a schema whose object nodes, at every depth, have a dict as
    schema entry or none, [validate_field_type] returns for every field
    name and value: it raises nothing. *)
Theorem validate_field_type_returns_on_dict_schemas :
  forall (expected_type : pyval),
    schema_has_dict_schemas expected_type = true ->
    forall (field_name : string) (value : pyval),
    exists r, validate_field_type field_name value expected_type = Return r.
Proof.
  intros expected_type. pattern expected_type. apply schema_ind; clear expected_type.
  - intros t Hd _ field_name value. now apply validate_tag_returns.
  - intros et IH Hok field_name value.
    destruct (py_eq_str (match dict_get et "type" with Some t => t | None => VNone end)
                "object") eqn:Hobj.
    2: { rewrite validate_not_object_node; [eexists; reflexivity|].
         intros Ht. apply type_def_object in Ht. congruence. }
    apply type_def_object in Hobj.
    destruct (isinstance_dict value) eqn:Hv.
    2: { rewrite validate_nested_not_dict by assumption. eexists; reflexivity. }
    destruct value as [| | | | | |members]; try discriminate.
    rewrite validate_nested_object by assumption.
    rewrite schema_has_dict_schemas_node in Hok by assumption.
    destruct (dict_get et "schema") as [sch|] eqn:Hs; [|eexists; reflexivity].
    destruct sch as [| | | | | |ns]; try discriminate.
    specialize (IH ns eq_refl).
    destruct (for_items (nested_step field_name members) ns) eqn:Hloop;
      cbn [falls_to]; try (eexists; reflexivity).
    apply for_items_raised_inv in Hloop as [nf [nt [Hin Hstep]]].
    apply nested_step_raised in Hstep as [nv Hraise].
    rewrite Forall_forall in IH. rewrite forallb_forall in Hok.
    destruct (IH (nf, nt) Hin (Hok (nf, nt) Hin) (field_name ++ "." ++ nf) nv)
      as [r Hr].
    cbn [snd] in Hr. congruence.
Qed.

(** X3: a null value passes no type check.  For every expected type
    whatever, the validator answers [None] with an error message; and a
    typed field of the metadata whose value is [None] makes
    [validate_metadata] raise the 400 error of that field, once the
    required fields are present and the typed fields before it pass. *)
Theorem null_value_never_validates :
  (forall (field_name : string) (expected_type : pyval),
      exists message,
        validate_field_type field_name VNone expected_type = Return (Some message))
  /\ (forall (metadata : pydict) (required_fields : list string)
             (before after : pydict) (field : string) (expected_type : pyval),
        (forall f, In f required_fields -> dict_mem metadata f = true) ->
        Forall (typed_entry_passes metadata) before ->
        dict_get metadata field = Some VNone ->
        exists message,
          validate_metadata metadata required_fields
            (before ++ (field, expected_type) :: after)%list =
          Raise (HTTPException 400
                   ("Incorrect data type for field '" ++ field ++ "': " ++ message))).
Proof.
  assert (Hnull : forall field_name expected_type,
             exists message,
               validate_field_type field_name VNone expected_type
               = Return (Some message)).
  { intros field_name expected_type.
    destruct expected_type as [| b | n | r | s | l | et].
    1-6: cbn;
      repeat match goal with
        | |- context [if ?c then _ else _] => destruct c
        end;
      eexists; reflexivity.
    destruct (py_eq_str (match dict_get et "type" with Some t => t | None => VNone end)
                "object") eqn:Hobj.
    - apply type_def_object in Hobj.
      rewrite validate_nested_not_dict by (assumption || reflexivity).
      eexists; reflexivity.
    - rewrite validate_not_object_node; [eexists; reflexivity|].
      intros Ht. apply type_def_object in Ht. congruence. }
  split; [exact Hnull|].
  intros metadata required_fields before after field expected_type Hreq Hbefore Hget.
  destruct (Hnull field expected_type) as [message Hmsg].
  exists message.
  rewrite validate_metadata_all_present by now apply missing_fields_nil.
  rewrite for_items_skip by now apply typed_entry_passes_next.
  cbn [for_items]. unfold typed_field_step at 1.
  replace (dict_mem metadata field) with true
    by (symmetry; apply dict_mem_get; eauto).
  rewrite (dict_item_get _ _ Hget), Hmsg.
  now rewrite (validate_field_type_message_truthy _ _ _ Hmsg).
Qed.

(** X4: a dict given as expected type whose "type" entry is not the text
    "object" (or is absent) is refused as a configuration error, whatever
    the value: the message is
    "unsupported nested type structure in '<field>'", and this holds even
    for a value that would match. *)
Theorem unsupported_nested_structure_for_every_value :
  forall (field_name : string) (value : pyval) (et : pydict),
    dict_get et "type" <> Some (VStr "object") ->
    validate_field_type field_name value (VDict et) =
    Return (Some ("unsupported nested type structure in '" ++ field_name ++ "'")).
Proof.
  intros field_name value et Ht. now apply validate_not_object_node.
Qed.

(** X5: what the five plain tags accept, by the kind of the value alone:
    "string" a str; "number" an int, a float or a bool; "boolean" a bool;
    "array" a list; "object" a dict, whatever they hold.  A refused value
    gets "expected <tag>, got <kind>", which names no field. *)
Theorem plain_tags_accept_by_kind :
  forall (field_name : string) (value : pyval),
    (validate_field_type field_name value (VStr "string") = Return None
     <-> type_name value = "str")
    /\ (validate_field_type field_name value (VStr "number") = Return None
        <-> type_name value = "int" \/ type_name value = "float"
            \/ type_name value = "bool")
    /\ (validate_field_type field_name value (VStr "boolean") = Return None
        <-> type_name value = "bool")
    /\ (validate_field_type field_name value (VStr "array") = Return None
        <-> type_name value = "list")
    /\ (validate_field_type field_name value (VStr "object") = Return None
        <-> type_name value = "dict")
    /\ (forall tag,
          In tag ["string"; "number"; "boolean"; "array"; "object"] ->
          validate_field_type field_name value (VStr tag) = Return None
          \/ validate_field_type field_name value (VStr tag) =
             Return (Some ("expected " ++ tag ++ ", got " ++ type_name value))).
Proof.
  intros field_name value.
  repeat split; try (destruct value; cbn; intros H; try discriminate H;
                     try reflexivity; tauto).
  - destruct value; cbn; intros [H | [H | H]]; try discriminate H; reflexivity.
  - intros tag [<- | [<- | [<- | [<- | [<- | []]]]]];
      destruct value; cbn; tauto.
Qed.

(** ** The metadata validator *)

Lemma typed_field_step_not_returned (metadata : pydict) (field : string)
    (expected_type : pyval) (u : unit) :
  typed_field_step metadata field expected_type <> Returned u.
Proof.
  unfold typed_field_step. destruct (dict_mem metadata field); [|discriminate].
  destruct (validate_field_type field (dict_item metadata field) expected_type)
    as [[msg|]|e]; try discriminate.
  destruct (str_truthy msg); discriminate.
Qed.

Lemma typed_field_step_next (metadata : pydict) (field : string)
    (expected_type value : pyval) :
  typed_field_step metadata field expected_type = Next ->
  dict_get metadata field = Some value ->
  validate_field_type field value expected_type = Return None.
Proof.
  unfold typed_field_step. intros H Hget.
  replace (dict_mem metadata field) with true in H
    by (symmetry; apply dict_mem_get; eauto).
  rewrite (dict_item_get _ _ Hget) in H.
  destruct (validate_field_type field value expected_type) as [[msg|]|e] eqn:E;
    [|reflexivity|discriminate].
  rewrite (validate_field_type_message_truthy _ _ _ E) in H. discriminate.
Qed.

Lemma validate_metadata_return_inv (metadata : pydict)
    (required_fields : list string) (field_types : pydict) (u : unit) :
  validate_metadata metadata required_fields field_types = Return u ->
  (forall f, In f required_fields -> dict_mem metadata f = true)
  /\ (forall field expected_type value,
        In (field, expected_type) field_types ->
        dict_get metadata field = Some value ->
        validate_field_type field value expected_type = Return None).
Proof.
  rewrite validate_metadata_unfold.
  destruct (list_truthy (missing_fields metadata required_fields)) eqn:Hm;
    [discriminate|].
  intros H. split.
  - apply missing_fields_nil.
    now destruct (missing_fields metadata required_fields).
  - destruct (for_items (typed_field_step metadata) field_types) eqn:Hloop;
      cbn [falls_to] in H; [| |discriminate].
    + apply for_items_next_inv in Hloop. rewrite Forall_forall in Hloop.
      intros field expected_type value Hin Hget.
      exact (typed_field_step_next _ _ _ (Hloop (field, expected_type) Hin) Hget).
    + apply for_items_returned_inv in Hloop as [first [k [x [rest [_ [_ Hr]]]]]].
      now apply typed_field_step_not_returned in Hr.
Qed.

(** X6: [validate_metadata] returns exactly when every required field is
    a key of the metadata and the validator returns no error for every typed
    field that is a key of the metadata: metadata that gets through has
    passed every check. *)
Theorem validate_metadata_returns_iff :
  forall (metadata : pydict) (required_fields : list string) (field_types : pydict),
    validate_metadata metadata required_fields field_types = Return tt
    <-> (forall f, In f required_fields -> dict_mem metadata f = true)
        /\ (forall field expected_type value,
              In (field, expected_type) field_types ->
              dict_get metadata field = Some value ->
              validate_field_type field value expected_type = Return None).
Proof.
  intros metadata required_fields field_types. split.
  - apply validate_metadata_return_inv.
  - intros [Hreq Htyped]. now apply validate_metadata_returns.
Qed.

(** X7: type errors stop at the first offending field.  When the required
    fields are present and the typed fields before one pass, an error
    message of the validator for that one becomes the 400 error
    "Incorrect data type for field '<field>': <message>", and an exception
    of the validator for it leaves [validate_metadata] as it is; the typed
    fields after it play no part. *)
Theorem validate_metadata_stops_at_first_type_error :
  forall (metadata : pydict) (required_fields : list string)
         (before after : pydict) (field : string) (expected_type value : pyval),
    (forall f, In f required_fields -> dict_mem metadata f = true) ->
    Forall (typed_entry_passes metadata) before ->
    dict_get metadata field = Some value ->
    (forall message,
        validate_field_type field value expected_type = Return (Some message) ->
        validate_metadata metadata required_fields
          (before ++ (field, expected_type) :: after)%list =
        Raise (HTTPException 400
                 ("Incorrect data type for field '" ++ field ++ "': " ++ message)))
    /\ (forall e,
          validate_field_type field value expected_type = Raise e ->
          validate_metadata metadata required_fields
            (before ++ (field, expected_type) :: after)%list = Raise e).
Proof.
  intros metadata required_fields before after field expected_type value
    Hreq Hbefore Hget.
  assert (Hmem : dict_mem metadata field = true) by (apply dict_mem_get; eauto).
  split.
  - intros message Hmsg.
    rewrite validate_metadata_all_present by now apply missing_fields_nil.
    rewrite for_items_skip by now apply typed_entry_passes_next.
    cbn [for_items]. unfold typed_field_step at 1.
    rewrite Hmem, (dict_item_get _ _ Hget), Hmsg.
    now rewrite (validate_field_type_message_truthy _ _ _ Hmsg).
  - intros e He.
    rewrite validate_metadata_all_present by now apply missing_fields_nil.
    rewrite for_items_skip by now apply typed_entry_passes_next.
    cbn [for_items]. unfold typed_field_step at 1.
    now rewrite Hmem, (dict_item_get _ _ Hget), He.
Qed.

Lemma typed_field_step_raised (metadata : pydict) (field : string)
    (expected_type : pyval) (e : exn) :
  typed_field_step metadata field expected_type = Raised e ->
  exists value,
    dict_get metadata field = Some value
    /\ ((exists message,
           validate_field_type field value expected_type = Return (Some message)
           /\ e = HTTPException 400
                    ("Incorrect data type for field '" ++ field ++ "': " ++ message))
        \/ validate_field_type field value expected_type = Raise e).
Proof.
  unfold typed_field_step, dict_mem, dict_item.
  destruct (dict_get metadata field) as [value|]; [|discriminate].
  intros H. exists value. split; [reflexivity|].
  destruct (validate_field_type field value expected_type) as [[msg|]|e'];
    try discriminate.
  - destruct (str_truthy msg); [|discriminate].
    injection H as <-. left. now exists msg.
  - injection H as <-. now right.
Qed.

(** X8: the [HTTPException]s of [validate_metadata].  Each has the
    status 400 and is one of two: the error of the missing required fields,
    raised when a required field is no key of the metadata, whose detail
    starts with "Missing required fields: "; or, all required fields being
    present, the error
    "Incorrect data type for field '<field>': <message>" of a typed field
    that is a key of the metadata and for which the validator returned
    that message. *)
Theorem validate_metadata_failures :
  forall (metadata : pydict) (required_fields : list string) (field_types : pydict)
         (status_code : Z) (detail : string),
    validate_metadata metadata required_fields field_types =
    Raise (HTTPException status_code detail) ->
    status_code = 400%Z
    /\ (((exists f, In f required_fields /\ dict_mem metadata f = false)
         /\ starts_with detail "Missing required fields: " = true)
        \/ ((forall f, In f required_fields -> dict_mem metadata f = true)
            /\ exists field expected_type value message,
                 In (field, expected_type) field_types
                 /\ dict_get metadata field = Some value
                 /\ validate_field_type field value expected_type
                    = Return (Some message)
                 /\ detail =
                    "Incorrect data type for field '" ++ field ++ "': " ++ message)).
Proof.
  intros metadata required_fields field_types status_code detail.
  rewrite validate_metadata_unfold.
  destruct (missing_fields metadata required_fields) as [|f l] eqn:Hm;
    cbn [list_truthy].
  - destruct (for_items (typed_field_step metadata) field_types) eqn:Hloop;
      cbn [falls_to]; try discriminate.
    intros [= ->].
    apply for_items_raised_inv in Hloop as [field [t [Hin Hstep]]].
    apply typed_field_step_raised in Hstep as [value [Hget [[msg [Hmsg E]] | Hr]]].
    + injection E as -> ->. split; [reflexivity|]. right.
      split; [now apply missing_fields_nil|].
      exists field, t, value, msg. repeat split; assumption.
    + apply validate_field_type_raise_inv in Hr as [other [_ Hr]]. discriminate.
  - intros [= <- <-]. split; [reflexivity|]. left. split.
    + exists f. apply missing_fields_In. rewrite Hm. now left.
    + exact (starts_with_app "Missing required fields: "
               (py_str (VList (map VStr (f :: l))))).
Qed.

Lemma dict_set_mem_other (d : pydict) (key key' : string) (v : pyval) :
  key <> key' -> dict_mem (dict_set d key v) key' = dict_mem d key'.
Proof.
  intros Hne. unfold dict_mem. rewrite dict_get_set.
  destruct (String.eqb_spec key key'); [contradiction | reflexivity].
Qed.

(** X9: a field of the metadata that the configuration does not list is
    invisible to the validation.  Adding it, or changing its value, leaves
    the outcome of [validate_metadata] as it was, when the field is neither
    required nor typed. *)
Theorem validate_metadata_ignores_unlisted_field :
  forall (metadata : pydict) (required_fields : list string) (field_types : pydict)
         (key : string) (v : pyval),
    ~ In key required_fields ->
    dict_get field_types key = None ->
    validate_metadata (dict_set metadata key v) required_fields field_types =
    validate_metadata metadata required_fields field_types.
Proof.
  intros metadata required_fields field_types key v Hreq Htype.
  rewrite !validate_metadata_unfold.
  replace (missing_fields (dict_set metadata key v) required_fields)
    with (missing_fields metadata required_fields).
  2: { unfold missing_fields. apply filter_ext_in. intros g Hin.
       rewrite dict_set_mem_other; [reflexivity|]. intros ->. contradiction. }
  destruct (list_truthy (missing_fields metadata required_fields)); [reflexivity|].
  f_equal. apply for_items_ext.
  eapply Forall_impl; [|exact (dict_get_absent_key _ _ Htype)].
  intros [g t] Hne. cbn [fst snd] in *. unfold typed_field_step.
  rewrite dict_set_mem_other by congruence.
  unfold dict_item. rewrite dict_get_set.
  destruct (String.eqb_spec key g); [congruence | reflexivity].
Qed.

(** ** The normaliser *)

Lemma present_entries_app (metadata : pydict) (first rest : list (string * string)) :
  present_entries metadata (first ++ rest)%list =
  (present_entries metadata first ++ present_entries metadata rest)%list.
Proof. apply filter_app. Qed.

Lemma present_entries_In (metadata : pydict) (mappings : list (string * string))
    (c k : string) :
  In (c, k) (present_entries metadata mappings) <->
  In (c, k) mappings /\ dict_mem metadata c = true.
Proof. unfold present_entries. now rewrite filter_In. Qed.

Lemma dict_set_absent (d : pydict) (key : string) (v : pyval) :
  dict_mem d key = false -> dict_set d key v = (d ++ [(key, v)])%list.
Proof.
  unfold dict_mem. induction d as [|[k w] d IH]; simpl; [reflexivity|].
  destruct (String.eqb k key); [discriminate|].
  intros H. now rewrite IH.
Qed.

Lemma dict_get_app_absent (first rest : pydict) (key : string) :
  dict_mem first key = false ->
  dict_get (first ++ rest)%list key = dict_get rest key.
Proof.
  unfold dict_mem. induction first as [|[k w] first IH]; simpl; [reflexivity|].
  destruct (String.eqb k key); [discriminate | exact IH].
Qed.

(** With distinct internal keys each present entry adds one key. *)
Lemma normalize_loop_distinct_length (metadata : pydict)
    (mappings : list (string * string)) :
  forall acc,
    NoDup (map fst acc ++ map snd (present_entries metadata mappings))%list ->
    List.length (normalize_loop metadata mappings acc)
    = List.length acc + List.length (present_entries metadata mappings).
Proof.
  induction mappings as [|[c k] mappings IH]; intros acc Hnd.
  - simpl. lia.
  - rewrite normalize_loop_cons. unfold present_entries in *. cbn [filter fst] in *.
    unfold normalize_step.
    destruct (dict_get metadata c) as [w|] eqn:Hc.
    + replace (dict_mem metadata c) with true in *
        by (symmetry; apply dict_mem_get; eauto).
      cbn [map snd] in Hnd.
      assert (Hk : dict_mem acc k = false).
      { apply not_true_is_false. intros Hm. apply dict_mem_keys in Hm.
        apply NoDup_remove_2 in Hnd. apply Hnd, in_or_app. now left. }
      rewrite IH.
      * rewrite dict_set_length, Hk. cbn [List.length]. lia.
      * rewrite dict_set_keys, Hk, <- app_assoc. exact Hnd.
    + replace (dict_mem metadata c) with false in *
        by (symmetry; now apply dict_mem_false_get).
      now apply IH.
Qed.

(** X10: a rename map that sends the consumer keys present in the
    metadata to distinct internal keys loses nothing: the internal key of
    every such entry holds the value of its consumer key, and the result has
    as many entries as there are such entries. *)
Theorem normalize_metadata_distinct_targets :
  forall (metadata : pydict) (mappings : list (string * string)),
    NoDup (map snd (present_entries metadata mappings)) ->
    (forall consumer_key internal_key v,
        In (consumer_key, internal_key) mappings ->
        dict_get metadata consumer_key = Some v ->
        dict_get (normalize_metadata metadata mappings) internal_key = Some v)
    /\ List.length (normalize_metadata metadata mappings)
       = List.length (present_entries metadata mappings).
Proof.
  intros metadata mappings Hnd. split.
  - intros c k v Hin Hget.
    apply in_split in Hin as [before [after ->]].
    rewrite normalize_metadata_loop. apply normalize_loop_last; [exact Hget|].
    intros c' Hin'. apply not_true_is_false. intros Hm.
    rewrite present_entries_app in Hnd.
    unfold present_entries at 2 in Hnd. cbn [filter fst] in Hnd.
    replace (dict_mem metadata c) with true in Hnd
      by (symmetry; apply dict_mem_get; eauto).
    rewrite map_app in Hnd. cbn [map snd] in Hnd.
    apply NoDup_remove_2 in Hnd. apply Hnd, in_or_app. right.
    apply (in_map snd _ (c', k)). now apply present_entries_In.
  - rewrite normalize_metadata_loop, normalize_loop_distinct_length; [reflexivity|].
    exact Hnd.
Qed.

Lemma normalize_loop_identity (suffix : pydict) :
  forall prefix,
    NoDup (map fst (prefix ++ suffix)%list) ->
    normalize_loop (prefix ++ suffix)%list
      (map (fun entry => (fst entry, fst entry)) suffix) prefix
    = (prefix ++ suffix)%list.
Proof.
  induction suffix as [|[k v] suffix IH]; intros prefix Hnd.
  - now rewrite app_nil_r.
  - cbn [map fst]. rewrite normalize_loop_cons.
    assert (Hk : dict_mem prefix k = false).
    { apply not_true_is_false. intros Hm. apply dict_mem_keys in Hm.
      rewrite map_app in Hnd. cbn [map fst] in Hnd.
      apply NoDup_remove_2 in Hnd. apply Hnd, in_or_app. now left. }
    unfold normalize_step.
    rewrite dict_get_app_absent by exact Hk.
    cbn [dict_get]. rewrite String.eqb_refl, dict_set_absent by exact Hk.
    replace (prefix ++ (k, v) :: suffix)%list
      with ((prefix ++ [(k, v)]) ++ suffix)%list in *
      by (rewrite <- app_assoc; reflexivity).
    now apply IH.
Qed.

(** X11: renaming every field to its own name gives the metadata back.
    For metadata with distinct keys and the rename map that sends each of
    its keys, in order, to itself, [normalize_metadata] returns the
    metadata, keys, values and order. *)
Theorem normalize_metadata_identity_map :
  forall (metadata : pydict),
    NoDup (map fst metadata) ->
    normalize_metadata metadata (map (fun entry => (fst entry, fst entry)) metadata)
    = metadata.
Proof.
  intros metadata Hnd. rewrite normalize_metadata_loop.
  exact (normalize_loop_identity metadata [] Hnd).
Qed.

(** X12: the result of [normalize_metadata] never has more entries than
    the rename map has entries whose consumer key is in the metadata, and
    so never more than the rename map. *)
Theorem normalize_metadata_size_bound :
  forall (metadata : pydict) (mappings : list (string * string)),
    List.length (normalize_metadata metadata mappings)
    <= List.length (present_entries metadata mappings)
    /\ List.length (present_entries metadata mappings) <= List.length mappings.
Proof.
  intros metadata mappings. split.
  - rewrite normalize_metadata_loop.
    exact (normalize_loop_length metadata mappings []).
  - apply filter_length_le.
Qed.

Lemma normalize_loop_ext (metadata1 metadata2 : pydict)
    (mappings : list (string * string)) :
  (forall c k, In (c, k) mappings -> dict_get metadata1 c = dict_get metadata2 c) ->
  forall acc,
    normalize_loop metadata1 mappings acc = normalize_loop metadata2 mappings acc.
Proof.
  induction mappings as [|[c k] mappings IH]; intros Hsame acc; [reflexivity|].
  rewrite !normalize_loop_cons.
  replace (normalize_step metadata1 acc (c, k))
    with (normalize_step metadata2 acc (c, k))
    by (unfold normalize_step; now rewrite (Hsame c k (or_introl eq_refl))).
  apply IH. intros c' k' Hin. apply (Hsame c' k'). now right.
Qed.

(** X13: a field of the metadata that is no consumer key of the rename
    map has no influence on the result: adding it, or changing its value,
    leaves the result of [normalize_metadata] as it was. *)
Theorem normalize_metadata_ignores_unmapped_field :
  forall (metadata : pydict) (mappings : list (string * string))
         (key : string) (v : pyval),
    (forall internal_key, ~ In (key, internal_key) mappings) ->
    normalize_metadata (dict_set metadata key v) mappings =
    normalize_metadata metadata mappings.
Proof.
  intros metadata mappings key v Hno. rewrite !normalize_metadata_loop.
  apply normalize_loop_ext. intros c k Hin. rewrite dict_get_set.
  destruct (String.eqb_spec key c) as [->|_]; [|reflexivity].
  now apply Hno in Hin.
Qed.

(** ** The configuration provider and the route *)

Lemma starts_with_empty (whole : string) : starts_with whole "" = true.
Proof. now destruct whole. Qed.

(** X14: the file that [load_consumer_config] consults.  For a consumer
    identifier that does not begin with "/", it is
    "config/<consumer_id>.json"; for one that begins with "/", the
    directory is dropped and the file is "<consumer_id>.json".  When the
    file does not exist the 404 error names the consumer; when it exists
    the outcome is that of reading it. *)
Theorem load_consumer_config_file :
  forall (fs : config_files) (consumer_id : string),
    let config_file :=
      if starts_with consumer_id "/" then consumer_id ++ ".json"
      else "config/" ++ consumer_id ++ ".json" in
    load_consumer_config fs consumer_id =
    if path_exists fs config_file then load_json fs config_file
    else Raise (HTTPException 404 ("No config found for consumer: " ++ consumer_id)).
Proof.
  intros fs consumer_id config_file. unfold load_consumer_config.
  assert (Hp : path_join CONFIG_PATH (consumer_id ++ ".json") = config_file).
  { unfold path_join, config_file.
    destruct consumer_id as [|a s]; [reflexivity|].
    cbn [append starts_with]. rewrite !starts_with_empty.
    destruct (Ascii.eqb "/" a); reflexivity. }
  rewrite Hp. now destruct (path_exists fs config_file).
Qed.

Lemma ingest_try_loaded (fs : config_files) (request : IngestRequest)
    (config : consumer_config) :
  load_consumer_config fs (consumer_id request) = Return config ->
  ingest_try fs request =
  match validate_metadata (metadata request)
          (get_or (cfg_required_fields config) [])
          (get_or (cfg_field_types config) []) with
  | Raise e => ([], Raise e)
  | Return _ =>
      ([check_mark ++ " Normalized message for " ++ consumer_id request ++ ": "
        ++ py_str (VDict (normalize_metadata (metadata request)
                            (get_or (cfg_mappings config) [])))],
       Return (VDict [("message",
                       VStr ("Data from " ++ consumer_id request
                             ++ " processed successfully"));
                      ("normalized_payload",
                       VDict (normalize_metadata (metadata request)
                                (get_or (cfg_mappings config) [])))]))
  end.
Proof. unfold ingest_try. now intros ->. Qed.

(** X15: a consumer without a configuration file gets the 404 error that
    names it, whatever the metadata, and nothing is printed. *)
Theorem ingest_unknown_consumer :
  forall (fs : config_files) (request : IngestRequest),
    path_exists fs (path_join CONFIG_PATH (consumer_id request ++ ".json")) = false ->
    ingest fs request =
    ([], Raise (HTTPException 404
                  ("No config found for consumer: " ++ consumer_id request))).
Proof.
  intros fs request Hno. unfold ingest, ingest_try, load_consumer_config.
  now rewrite Hno.
Qed.

(** X16: a response of [ingest] means that the metadata passed.  When
    [ingest] returns, the configuration was loaded, every required field
    is a key of the metadata and every typed field that is a key validates;
    the response holds the message for the consumer and, as normalized
    payload, the result of [normalize_metadata] under the mappings of the
    configuration; and one line was printed, which starts with the check
    mark and names the consumer. *)
Theorem ingest_response_passed_validation :
  forall (fs : config_files) (request : IngestRequest)
         (printed : list string) (response : pyval),
    ingest fs request = (printed, Return response) ->
    exists config,
      load_consumer_config fs (consumer_id request) = Return config
      /\ (forall f, In f (get_or (cfg_required_fields config) []) ->
                    dict_mem (metadata request) f = true)
      /\ (forall field expected_type value,
            In (field, expected_type) (get_or (cfg_field_types config) []) ->
            dict_get (metadata request) field = Some value ->
            validate_field_type field value expected_type = Return None)
      /\ response =
         VDict [("message",
                 VStr ("Data from " ++ consumer_id request
                       ++ " processed successfully"));
                ("normalized_payload",
                 VDict (normalize_metadata (metadata request)
                          (get_or (cfg_mappings config) [])))]
      /\ exists shown,
           printed =
           [check_mark ++ " Normalized message for " ++ consumer_id request ++ ": "
            ++ shown].
Proof.
  intros fs request printed response. unfold ingest.
  destruct (load_consumer_config fs (consumer_id request)) as [config|e] eqn:Hload.
  - rewrite (ingest_try_loaded _ _ Hload).
    destruct (validate_metadata (metadata request)
                (get_or (cfg_required_fields config) [])
                (get_or (cfg_field_types config) [])) as [u|e] eqn:Hval.
    + intros [= <- <-]. exists config.
      apply validate_metadata_return_inv in Hval as [Hreq Htyped].
      repeat split; try assumption. eexists. reflexivity.
    + destruct e; discriminate.
  - unfold ingest_try. rewrite Hload. destruct e; discriminate.
Qed.

Lemma ingest_try_raise_prints_nothing (fs : config_files) (request : IngestRequest)
    (out : list string) (e : exn) :
  ingest_try fs request = (out, Raise e) -> out = [].
Proof.
  unfold ingest_try.
  destruct (load_consumer_config fs (consumer_id request)) as [config|e0];
    [|now intros [= <- _]].
  destruct (validate_metadata (metadata request)
              (get_or (cfg_required_fields config) [])
              (get_or (cfg_field_types config) [])); [discriminate|].
  now intros [= <- _].
Qed.

(** X17: whatever goes wrong, [ingest] raises an [HTTPException] and
    prints nothing: no other exception leaves it. *)
Theorem ingest_raises_only_http_exceptions :
  forall (fs : config_files) (request : IngestRequest)
         (printed : list string) (e : exn),
    ingest fs request = (printed, Raise e) ->
    printed = [] /\ exists status_code detail, e = HTTPException status_code detail.
Proof.
  intros fs request printed e. unfold ingest.
  destruct (ingest_try fs request) as [out [response|[c d|msg]]] eqn:Hrun;
    [discriminate| |].
  - intros [= <- <-]. split; [exact (ingest_try_raise_prints_nothing _ _ Hrun) | eauto].
  - intros [= <- <-]. split; [exact (ingest_try_raise_prints_nothing _ _ Hrun) | eauto].
Qed.

(** X18: how a failed validation reaches the caller.  With the
    configuration loaded, an [HTTPException] of [validate_metadata] leaves
    [ingest] unchanged, and an [AttributeError] of it leaves [ingest] as
    the 500 error "Unexpected error: <text of the AttributeError>"; in both
    cases nothing is printed. *)
Theorem ingest_validation_failure :
  forall (fs : config_files) (request : IngestRequest) (config : consumer_config),
    load_consumer_config fs (consumer_id request) = Return config ->
    (forall status_code detail,
        validate_metadata (metadata request)
          (get_or (cfg_required_fields config) [])
          (get_or (cfg_field_types config) [])
        = Raise (HTTPException status_code detail) ->
        ingest fs request = ([], Raise (HTTPException status_code detail)))
    /\ (forall msg,
          validate_metadata (metadata request)
            (get_or (cfg_required_fields config) [])
            (get_or (cfg_field_types config) [])
          = Raise (AttributeError msg) ->
          ingest fs request =
          ([], Raise (HTTPException 500 ("Unexpected error: " ++ msg)))).
Proof.
  intros fs request config Hload. split.
  - intros status_code detail Hval.
    unfold ingest. now rewrite (ingest_try_loaded _ _ Hload), Hval.
  - intros msg Hval.
    unfold ingest. now rewrite (ingest_try_loaded _ _ Hload), Hval.
Qed.

(** X19: a configuration file that has none of the three keys accepts
    every metadata and passes nothing on: the defaults are no required
    field, no typed field and an empty rename map, so the normalized
    payload is the empty dict. *)
Theorem ingest_with_empty_configuration :
  forall (fs : config_files) (request : IngestRequest) (config : consumer_config),
    load_consumer_config fs (consumer_id request) = Return config ->
    cfg_required_fields config = None ->
    cfg_field_types config = None ->
    cfg_mappings config = None ->
    ingest fs request =
    ([check_mark ++ " Normalized message for " ++ consumer_id request ++ ": {}"],
     Return (VDict [("message",
                     VStr ("Data from " ++ consumer_id request
                           ++ " processed successfully"));
                    ("normalized_payload", VDict [])])).
Proof.
  intros fs request config Hload Hr Ht Hm.
  unfold ingest. rewrite (ingest_try_loaded _ _ Hload), Hr, Ht, Hm.
  reflexivity.
Qed.

(** * The further properties on concrete inputs *)

(** X1 on an object node whose schema entry is a text. *)
Lemma validate_field_type_raises_only_on_schema_items_example :
  exists other,
    isinstance_dict other = false
    /\ AttributeError "'str' object has no attribute 'items'" = no_items_attribute other.
Proof.
  apply (validate_field_type_raises_only_on_schema_items
           (VDict [("type", VStr "object"); ("schema", VStr "x")]) "a" (VDict [])).
  reflexivity.
Defined.

(** X2 on the address schema. *)
Lemma validate_field_type_returns_on_dict_schemas_example :
  exists r, validate_field_type "address" (VInt 7) address_schema = Return r.
Proof.
  apply validate_field_type_returns_on_dict_schemas. reflexivity.
Defined.

(** X4 on a dict whose type entry is "array". *)
Lemma unsupported_nested_structure_for_every_value_example :
  validate_field_type "tags" (VList []) (VDict [("type", VStr "array")]) =
  Return (Some "unsupported nested type structure in 'tags'").
Proof.
  apply unsupported_nested_structure_for_every_value. discriminate.
Defined.

(** X7: the error of age is reported, the unknown tag of zip after it is
    not reached. *)
Lemma validate_metadata_stops_at_first_type_error_example :
  validate_metadata [("name", VStr "X"); ("age", VStr "old"); ("zip", VInt 1)]
    ["name"]
    [("name", VStr "string"); ("age", VStr "number"); ("zip", VStr "date")] =
  Raise (HTTPException 400
           "Incorrect data type for field 'age': expected number, got str").
Proof.
  destruct (@validate_metadata_stops_at_first_type_error
              [("name", VStr "X"); ("age", VStr "old"); ("zip", VInt 1)]
              ["name"] [("name", VStr "string")] [("zip", VStr "date")]
              "age" (VStr "number") (VStr "old")) as [Hmsg _].
  - intros f [<- | []]. reflexivity.
  - constructor; [|constructor]. right. exists (VStr "X"). split; reflexivity.
  - reflexivity.
  - apply Hmsg. reflexivity.
Defined.

(** X8 on a metadata without its required field. *)
Lemma validate_metadata_failures_example :
  400%Z = 400%Z
  /\ (((exists f, In f ["a"] /\ dict_mem [] f = false)
       /\ starts_with "Missing required fields: ['a']" "Missing required fields: " = true)
      \/ ((forall f, In f ["a"] -> dict_mem [] f = true)
          /\ exists field expected_type value message,
               In (field, expected_type) []
               /\ dict_get [] field = Some value
               /\ validate_field_type field value expected_type = Return (Some message)
               /\ "Missing required fields: ['a']" =
                  "Incorrect data type for field '" ++ field ++ "': " ++ message)).
Proof.
  apply (validate_metadata_failures [] ["a"] []). reflexivity.
Defined.

(** X9: an extra field changes nothing. *)
Lemma validate_metadata_ignores_unlisted_field_example :
  validate_metadata (dict_set [("a", VInt 1)] "extra" (VStr "x")) ["a"]
    [("a", VStr "number")] =
  validate_metadata [("a", VInt 1)] ["a"] [("a", VStr "number")].
Proof.
  apply validate_metadata_ignores_unlisted_field.
  - intros [E | []]. discriminate.
  - reflexivity.
Defined.

(** X10 on the rename map {a: x, b: y}. *)
Lemma normalize_metadata_distinct_targets_example :
  List.length
    (normalize_metadata [("a", VInt 1); ("b", VInt 2)] [("a", "x"); ("b", "y")])
  = List.length (present_entries [("a", VInt 1); ("b", VInt 2)] [("a", "x"); ("b", "y")]).
Proof.
  apply (normalize_metadata_distinct_targets
           [("a", VInt 1); ("b", VInt 2)] [("a", "x"); ("b", "y")]).
  cbn. constructor.
  - intros [E | []]. discriminate.
  - constructor; [intros [] | constructor].
Defined.

(** X11 on a metadata with two fields. *)
Lemma normalize_metadata_identity_map_example :
  normalize_metadata [("a", VInt 1); ("b", VStr "z")] [("a", "a"); ("b", "b")] =
  [("a", VInt 1); ("b", VStr "z")].
Proof.
  apply (normalize_metadata_identity_map [("a", VInt 1); ("b", VStr "z")]).
  cbn. constructor.
  - intros [E | []]. discriminate.
  - constructor; [intros [] | constructor].
Defined.

(** X13: a field that the map does not rename plays no part. *)
Lemma normalize_metadata_ignores_unmapped_field_example :
  normalize_metadata (dict_set [("a", VInt 1)] "other" (VInt 2)) [("a", "x")] =
  normalize_metadata [("a", VInt 1)] [("a", "x")].
Proof.
  apply normalize_metadata_ignores_unmapped_field.
  intros internal_key [E | []]. discriminate.
Defined.

(** X15 on a consumer that has no file. *)
Lemma ingest_unknown_consumer_example :
  ingest sample_files {| consumer_id := "nobody"; metadata := [("a", VInt 1)] |} =
  ([], Raise (HTTPException 404 "No config found for consumer: nobody")).
Proof.
  apply (ingest_unknown_consumer sample_files
           {| consumer_id := "nobody"; metadata := [("a", VInt 1)] |}).
  reflexivity.
Defined.

(** X16 on the consumer acme: full_name is renamed to name, the field age
    is dropped. *)
Lemma ingest_response_passed_validation_example :
  exists config,
    load_consumer_config sample_files "acme" = Return config
    /\ VDict [("message", VStr "Data from acme processed successfully");
              ("normalized_payload", VDict [("name", VStr "X")])] =
       VDict [("message", VStr "Data from acme processed successfully");
              ("normalized_payload",
               VDict (normalize_metadata [("full_name", VStr "X"); ("age", VInt 3)]
                        (get_or (cfg_mappings config) [])))].
Proof.
  destruct (ingest_response_passed_validation sample_files
              {| consumer_id := "acme";
                 metadata := [("full_name", VStr "X"); ("age", VInt 3)] |}
              (printed := [check_mark ++ " Normalized message for acme: {'name': 'X'}"])
              (response :=
                 VDict [("message", VStr "Data from acme processed successfully");
                        ("normalized_payload", VDict [("name", VStr "X")])])
              eq_refl)
    as [config [Hload [_ [_ [Hresponse _]]]]].
  exists config. split; [exact Hload | exact Hresponse].
Defined.

(** X17 and X18 on the consumer acme with an empty metadata. *)
Lemma ingest_raises_only_http_exceptions_example :
  @nil string = []
  /\ exists status_code detail,
       HTTPException 400 "Missing required fields: ['full_name']" =
       HTTPException status_code detail.
Proof.
  apply (ingest_raises_only_http_exceptions sample_files
           {| consumer_id := "acme"; metadata := [] |}).
  reflexivity.
Defined.

Lemma ingest_validation_failure_example :
  ingest sample_files {| consumer_id := "acme"; metadata := [] |} =
  ([], Raise (HTTPException 400 "Missing required fields: ['full_name']")).
Proof.
  apply (proj1 (ingest_validation_failure sample_files
                  {| consumer_id := "acme"; metadata := [] |}
                  (config := sample_config) eq_refl)).
  reflexivity.
Defined.

(** X19 on the consumer blank, whose file has no key. *)
Lemma ingest_with_empty_configuration_example :
  ingest sample_files
    {| consumer_id := "blank"; metadata := [("anything", VNone)] |} =
  ([check_mark ++ " Normalized message for blank: {}"],
   Return (VDict [("message", VStr "Data from blank processed successfully");
                  ("normalized_payload", VDict [])])).
Proof.
  apply (ingest_with_empty_configuration sample_files
           {| consumer_id := "blank"; metadata := [("anything", VNone)] |}
           (config := empty_config)); reflexivity.
Defined.
